(** * message-analysis: a shallow embedding of [message-analysis.py]

    The script loads three tables of an iMessage [chat.db], joins them,
    filters the joined table, classifies conversations and ranks senders.
    A pandas [DataFrame] is modelled as the list of its rows in frame order,
    a Python [dict] as an association list in insertion order, a Python
    [set] of conversation ids as a [gset Z]. *)

From Stdlib Require Import ZArith String Ascii List Bool Lia Permutation Sorted.
From Stdlib Require Import DecimalString.
From stdpp Require Import base decidable option list gmap strings.

Import ListNotations.
Local Open Scope string_scope.
Local Open Scope list_scope.
Local Open Scope Z_scope.

(** * Part I: the model *)

(** ** Data model *)

(** The twelve message columns that [merge_data] selects.  [message_id] is
    the renamed [ROWID] of the [message] table and is never null;
    [handle_id] is an ordinary integer column and may be null. *)
Record Message := mkMessage {
  text : option string;
  handle_id : option Z;
  date : Z;
  message_date : Z;
  timestamp : Z;
  month : Z;
  year : Z;
  year_month : Z;          (* ordinal of the pandas monthly [Period] *)
  hour : Z;
  minute : Z;
  is_sent : Z;
  message_id : Z
}.

(** The two handle columns that [merge_data] selects: the renamed [ROWID]
    and the renamed [id], the identity string of the handle (a contact
    name, a phone number or an e-mail address), a text that is never
    null. *)
Record Handle := mkHandle {
  h_handle_id : Z;
  h_sender : string
}.

(** The two columns of [chat_message_join] that [merge_data] selects. *)
Record ChatMessageJoin := mkJoin {
  j_chat_id : option Z;
  j_message_id : option Z
}.

(** A row of the joined table: the message columns, then [sender] and
    [chat_id].  [None] is the missing value [NaN] that a left merge writes
    where no right row matched. *)
Record JoinedRow := mkRow {
  msg : Message;
  sender : option string;
  chat_id : option Z
}.

Definition DataFrame := list JoinedRow.

(** ** Joiner: [merge_data] *)

Module Joiner.

(** [pd.merge(left, right, on=key, how="left")]: the left rows in their
    order, each one once per matching right row (in the right frame's
    order), or once with missing right columns when nothing matches. *)
Definition left_merge {L R O : Type} (on : L -> R -> bool)
    (combine : L -> option R -> O) (left : list L) (right : list R) : list O :=
  flat_map (fun l =>
              match List.filter (on l) right with
              | [] => [combine l None]
              | r :: rs => List.map (fun r' => combine l (Some r')) (r :: rs)
              end) left.

(** [on="handle_id"]: the message's reference against the handle's id. *)
Definition on_handle_id (m : Message) (h : Handle) : bool :=
  bool_decide (handle_id m = Some (h_handle_id h)).

(** [on="message_id"]: the link's message id against the message's id. *)
Definition on_message_id (lvl1 : Message * option string) (j : ChatMessageJoin) : bool :=
  bool_decide (j_message_id j = Some (message_id (fst lvl1))).

(** Lines 38-58: messages left-merged with [handles[["handle_id", "sender"]]]. *)
Definition merge_level_1 (messages : list Message) (handles : list Handle)
    : list (Message * option string) :=
  left_merge on_handle_id (fun m h => (m, h_sender <$> h)) messages handles.

(** Lines 60-67: the result left-merged with
    [chat_message_joins[["chat_id", "message_id"]]]. *)
Definition merge_data (messages : list Message) (handles : list Handle)
    (chat_message_joins : list ChatMessageJoin) : DataFrame :=
  left_merge on_message_id
    (fun l j => mkRow (fst l) (snd l) (j ≫= j_chat_id))
    (merge_level_1 messages handles) chat_message_joins.




End Joiner.

(** ** Python dictionaries

    A [dict] keeps its keys in insertion order; assigning to a key that is
    already present replaces the value and leaves the key where it is. *)

Section PyDict.

Context {K V : Type} `{EqDecision K}.

Fixpoint dict_get (d : list (K * V)) (k : K) : option V :=
  match d with
  | [] => None
  | (k', v) :: d' => if decide (k' = k) then Some v else dict_get d' k
  end.

Fixpoint dict_set (d : list (K * V)) (k : K) (v : V) : list (K * V) :=
  match d with
  | [] => [(k, v)]
  | (k', v') :: d' =>
      if decide (k' = k) then (k', v) :: d' else (k', v') :: dict_set d' k v
  end.

End PyDict.

(** ** Conversation classifier: [get_dm_chat_ids], [get_group_chat_ids] *)

Module Classifier.

(** Truth value of a sender cell under Python's [not]: the empty string
    is false; a non-empty string and the float [NaN] are true. *)
Definition truthy (s : option string) : bool :=
  match s with
  | None => true
  | Some s => negb (bool_decide (s = ""))
  end.

(** Python's [!=] on two sender cells: [NaN] differs from every value,
    itself included. *)
Definition py_ne (a b : option string) : bool :=
  match a, b with
  | Some x, Some y => negb (bool_decide (x = y))
  | _, _ => true
  end.

(** The two locals of the scan.  [ids_to_senders] is keyed by the
    [chat_id] cell; [banned_ids] only ever receives ids found in it. *)
Record scan_state := mkScan {
  ids_to_senders : list (option Z * option string);
  banned_ids : gset Z
}.

Definition scan_init : scan_state := mkScan [] ∅.

(** One iteration of [for index, row in df_messages.iterrows()].  A null
    [chat_id] reaches the loop as a fresh float [NaN], which is equal to no
    stored key: [.get] finds nothing and the assignment adds a new entry. *)
Definition scan_row (st : scan_state) (row : JoinedRow) : scan_state :=
  match chat_id row with
  | None => mkScan (ids_to_senders st ++ [(None, sender row)]) (banned_ids st)
  | Some c =>
      match dict_get (ids_to_senders st) (Some c) with
      | None =>
          mkScan (dict_set (ids_to_senders st) (Some c) (sender row)) (banned_ids st)
      | Some recorded =>
          if negb (truthy recorded) then
            mkScan (dict_set (ids_to_senders st) (Some c) (sender row)) (banned_ids st)
          else if py_ne recorded (sender row) then
            mkScan (ids_to_senders st) ({[c]} ∪ banned_ids st)
          else st
      end
  end.

(** The loop of lines 86-92, repeated statement for statement at 108-114. *)
Definition scan (df_messages : DataFrame) : scan_state :=
  fold_left scan_row df_messages scan_init.

(** Lines 100-116. *)
Definition get_group_chat_ids (df_messages : DataFrame) : gset Z :=
  banned_ids (scan df_messages).

(** [for id in banned_ids: del ids_to_senders[id]] *)
Definition delete_banned (st : scan_state) : list (option Z * option string) :=
  List.filter (fun e => match fst e with
                        | Some c => negb (bool_decide (c ∈ banned_ids st))
                        | None => true
                        end) (ids_to_senders st).

(** [{sender: id for id, sender in ids_to_senders.items()}].  The missing
    senders of a joined table are one and the same [NaN] object, so as
    dictionary keys they coincide. *)
Definition invert (ids : list (option Z * option string))
    : list (option string * option Z) :=
  fold_left (fun acc e => dict_set acc (snd e) (fst e)) ids [].

(** Lines 79-97. *)
Definition get_dm_chat_ids (df_messages : DataFrame) : list (option string * option Z) :=
  invert (delete_banned (scan df_messages)).

(** The invariant of the specification, for a table and a banned set. *)
Definition same_sender_outside (df : DataFrame) (banned : gset Z) : Prop :=
  forall c r1 r2, c ∉ banned -> In r1 df -> In r2 df ->
    chat_id r1 = Some c -> chat_id r2 = Some c -> sender r1 = sender r2.


(** The non-null conversation ids that are keys of a dictionary. *)
Fixpoint real_keys (ids : list (option Z * option string)) : list Z :=
  match ids with
  | [] => []
  | (Some c, _) :: ids' => c :: real_keys ids'
  | (None, _) :: ids' => real_keys ids'
  end.

End Classifier.

(** ** Filters *)

(** What a call does: it returns a value or raises an exception. *)
Inductive py_exception := TypeError.

Inductive py_result (A : Type) :=
  | Returned (a : A)
  | Raised (e : py_exception).

Arguments Returned {A} a.
Arguments Raised {A} e.

Module Filters.

(** [df[mask]] for a boolean mask as long as the frame. *)
Fixpoint select (df : DataFrame) (mask : list bool) : DataFrame :=
  match df, mask with
  | r :: df', b :: mask' => if b then r :: select df' mask' else select df' mask'
  | _, _ => []
  end.

Fixpoint contains_char (c : ascii) (s : string) : bool :=
  match s with
  | EmptyString => false
  | String a s' => bool_decide (a = c) || contains_char c s'
  end.

Definition is_digit (a : ascii) : bool :=
  (48 <=? nat_of_ascii a)%nat && (nat_of_ascii a <=? 57)%nat.

(** [re.search("@|^\+|^\d", s)] finds a match: an at sign anywhere, or a
    plus sign or a digit in first position (digits are the ASCII ones for
    the byte strings used here). *)
Definition re_search_non_contact (s : string) : bool :=
  contains_char "@"%char s
  || match s with
     | EmptyString => false
     | String a _ => bool_decide (a = "+"%char) || is_digit a
     end.

(** [Series.str.contains(pat)]: a missing value gives a missing value. *)
Definition str_contains (cell : option string) : option bool :=
  re_search_non_contact <$> cell.

(** Unary [~] on the result of [str.contains].  Without missing values
    the series is boolean and is negated elementwise; with one it is an
    object series holding the float [NaN], on which [~] raises
    [TypeError: bad operand type for unary ~: 'float']. *)
Fixpoint invert_mask (mask : list (option bool)) : py_result (list bool) :=
  match mask with
  | [] => Returned []
  | None :: _ => Raised TypeError
  | Some b :: mask' =>
      match invert_mask mask' with
      | Returned bs => Returned (negb b :: bs)
      | Raised e => Raised e
      end
  end.

(** Lines 70-76: [mask = ~df_messages["sender"].str.contains(...)], then
    [df_messages[mask]]. *)
Definition remove_no_contact_senders (df_messages : DataFrame) : py_result DataFrame :=
  match invert_mask (List.map (fun r => str_contains (sender r)) df_messages) with
  | Returned mask => Returned (select df_messages mask)
  | Raised e => Raised e
  end.

(** [Series.isin(banned_ids)]; a null [chat_id] is in no set of ids. *)
Definition isin (cell : option Z) (ids : gset Z) : bool :=
  match cell with
  | Some c => bool_decide (c ∈ ids)
  | None => false
  end.

(** Lines 119-126. *)
Definition filter_groups (df_messages : DataFrame) : DataFrame :=
  let banned_ids := Classifier.get_group_chat_ids df_messages in
  select df_messages (List.map (fun r => negb (isin (chat_id r) banned_ids)) df_messages).

(** [Series == value]; a null [chat_id] is equal to no number. *)
Definition cell_eqb (cell : option Z) (value : Z) : bool :=
  bool_decide (cell = Some value).

(** Lines 129-135: [~(df_messages["chat_id"] == 12)]. *)
Definition filter_funusha (df_messages : DataFrame) : DataFrame :=
  select df_messages (List.map (fun r => negb (cell_eqb (chat_id r) 12)) df_messages).

(** Lines 138-143. *)
Definition single_chat (df_messages : DataFrame) (chat_id' : Z) : DataFrame :=
  select df_messages (List.map (fun r => cell_eqb (chat_id r) chat_id') df_messages).

End Filters.

(** ** The command-line entry point *)

Module Main.

(** A run of the script: the lines printed so far, and either a value or
    the status with which [sys.exit] left the process. *)
Definition proc (A : Type) : Type := list string * (A + Z).

#[export] Instance proc_ret : MRet proc := fun A a => ([], inl a).

(** Statements run in sequence; once [sys.exit] has raised [SystemExit],
    nothing that follows is run. *)
#[export] Instance proc_bind : MBind proc := fun A B k m =>
  match m with
  | (out, inl a) => let '(out', res) := k a in (out ++ out', res)
  | (out, inr status) => (out, inr status)
  end.

Definition print (line : string) : proc unit := ([line], inl tt).

Definition sys_exit (status : Z) : proc unit := ([], inr status).

Section Script.

(** Lines 224-242: connecting to the database at [sys.argv[1]], loading,
    joining and printing the summaries. *)
Variable analysis : list string -> proc unit.

(** Lines 219-242, the body under [if __name__ == "__main__":].  The
    call of [sys.exit] stands after the [if], at the indentation of the
    [if]. *)
Definition main (argv : list string) : proc unit :=
  (if (length argv <? 2)%nat
   then print "ERROR: Please provide the path to your chat.db file."
   else mret tt) ;;
  sys_exit 1 ;;
  analysis argv.

End Script.

End Main.

(** ** Stable sorting

    [DataFrame.sort_values] on several keys and Python's [sorted] are
    stable: rows that the order does not separate keep their relative
    order.  [before x y] says that [x] has to come strictly before [y]. *)

Section StableSort.

Context {A : Type} (before : A -> A -> bool).

Fixpoint insert_sorted (x : A) (l : list A) : list A :=
  match l with
  | [] => [x]
  | y :: l' => if before y x then y :: insert_sorted x l' else x :: y :: l'
  end.

Definition stable_sort (l : list A) : list A := fold_right insert_sorted [] l.

End StableSort.

(** ** Aggregators: [get_top_senders_by_month] *)

Module Aggregators.

(** A row of the grouped frame: the index [(year_month, sender)] and the
    column [message_id], which holds the count. *)
Definition group_key : Type := Z * string.

Definition counted : Type := group_key * Z.

Definition period_of (x : counted) : Z := fst (fst x).

Definition count_of (x : counted) : Z := snd x.

(** The group key of a row; a row whose sender is missing belongs to no
    group ([groupby] drops missing keys). *)
Definition row_key (r : JoinedRow) : option group_key :=
  match sender r with
  | Some s => Some (year_month (msg r), s)
  | None => None
  end.

(** The order in which [groupby] lists its keys: by period, then by
    sender. *)
Definition key_before (a b : group_key) : bool :=
  (fst a <? fst b)
  || ((fst a =? fst b) && String.ltb (snd a) (snd b)).

Definition group_keys (df : DataFrame) : list group_key :=
  stable_sort key_before (remove_dups (omap row_key df)).

(** ["count"] of [message_id]: the rows of the group, since [message_id]
    is never missing. *)
Definition message_count (k : group_key) (df : DataFrame) : Z :=
  Z.of_nat (length (List.filter (fun r => bool_decide (row_key r = Some k)) df)).

(** [df_messages.groupby(["year_month", "sender"]).agg({"message_id": "count"})] *)
Definition groupby_count (df : DataFrame) : list counted :=
  List.map (fun k => (k, message_count k df)) (group_keys df).

(** [sort_values(["year_month", "message_id"], ascending=[True, False])] *)
Definition sort_before (a b : counted) : bool :=
  (period_of a <? period_of b)
  || ((period_of a =? period_of b) && (count_of b <? count_of a)).

Definition sort_values (grouped : list counted) : list counted :=
  stable_sort sort_before grouped.

Definition count_period (p : Z) (l : list Z) : Z :=
  Z.of_nat (length (List.filter (Z.eqb p) l)).

(** [groupby("year_month").head(n)] keeps, in frame order, the rows with
    fewer than [n] earlier rows of their period; for a negative [n], the
    rows with at least [-n] later rows of their period. *)
Fixpoint head_from (n : Z) (seen : list Z) (l : list counted) : list counted :=
  match l with
  | [] => []
  | x :: l' =>
      let keep :=
        if 0 <=? n then count_period (period_of x) seen <? n
        else - n <=? count_period (period_of x) (List.map period_of l') in
      if keep then x :: head_from n (period_of x :: seen) l'
      else head_from n (period_of x :: seen) l'
  end.

Definition groupby_head (n : Z) (l : list counted) : list counted := head_from n [] l.

(** Lines 187-196. *)
Definition get_top_senders_by_month (df_messages : DataFrame) (top_x : Z) : list counted :=
  let grouped := groupby_count df_messages in
  let sorted_data := sort_values grouped in
  groupby_head top_x sorted_data.

(** The order of [sort_values]: periods ascending, counts descending. *)
Definition sorted_order (a b : counted) : Prop :=
  period_of a < period_of b
  \/ (period_of a = period_of b /\ count_of b <= count_of a).

Definition in_period (p : Z) (x : counted) : bool := period_of x =? p.


End Aggregators.

(** ** Ranker: [compute_sender_scores] *)

Module Ranker.
Import Aggregators.

(** The locals of the loop; [cur_year_month] is [None] while it still
    holds the initial empty string, which is equal to no period. *)
Record rank_state := mkRank {
  senders_to_scores : list (string * Z);
  cur_year_month : option Z;
  cur_rank : Z
}.

Definition rank_init : rank_state := mkRank [] None 0.

(** [if year_month != cur_year_month: cur_rank = 0; cur_year_month = year_month] *)
Definition start_period (st : rank_state) (year_month : Z) : rank_state :=
  if bool_decide (Some year_month ≠ cur_year_month st)
  then mkRank (senders_to_scores st) (Some year_month) 0
  else st.

(** One iteration of [for year_month, sender in top_senders_by_month.index].
    [senders_to_scores] is a [defaultdict] with default 0. *)
Definition rank_step (st : rank_state) (index : group_key) : rank_state :=
  let '(year_month, sender) := index in
  let st1 := start_period st year_month in
  let old := default 0 (dict_get (senders_to_scores st1) sender) in
  mkRank (dict_set (senders_to_scores st1) sender (old + (5 - cur_rank st1)))
         (cur_year_month st1)
         (cur_rank st1 + 1).

Definition rank_loop (index : list group_key) : rank_state :=
  fold_left rank_step index rank_init.

(** [str(value)] of a Python [int]. *)
Definition str (value : Z) : string := NilZero.string_of_int (Z.to_int value).

Definition format_score (item : string * Z) : string :=
  (fst item ++ ": " ++ str (snd item))%string.

(** [sorted(items, key=lambda x: x[1], reverse=True)]: the higher score
    first, equal scores in the order of the dictionary. *)
Definition score_before (a b : string * Z) : bool := snd b <? snd a.

(** Lines 199-216. *)
Definition compute_sender_scores (top_senders_by_month : list counted) : list string :=
  let st := rank_loop (List.map fst top_senders_by_month) in
  List.map format_score (stable_sort score_before (senders_to_scores st)).

(** The rank of a row of period [p]: the number of rows of period [p]
    that stand immediately before it.  [run_of] reads the earlier rows
    backwards. *)
Fixpoint run_of (p : Z) (rev_pre : list group_key) : Z :=
  match rev_pre with
  | (q, _) :: l => if q =? p then 1 + run_of p l else 0
  | [] => 0
  end.

Definition rank_after (pre : list group_key) (p : Z) : Z := run_of p (rev pre).

(** The sum, over the rows of sender [s], of 5 minus the rank of the row. *)
Fixpoint total_from (pre l : list group_key) (s : string) : Z :=
  match l with
  | [] => 0
  | (p, s') :: l' =>
      (if bool_decide (s' = s) then 5 - rank_after pre p else 0)
      + total_from (pre ++ [(p, s')]) l' s
  end.

Definition total_score (index : list group_key) (s : string) : Z :=
  total_from [] index s.


End Ranker.

(** ** Aggregators: [get_messages_per_year] *)

Module Yearly.

(** [df_messages.groupby("year").size()]: one entry per year that occurs,
    in ascending order of the years, with the number of rows of the year. *)
Definition messages_per_year (df_messages : DataFrame) : list (Z * Z) :=
  List.map
    (fun y => (y, Z.of_nat (length (List.filter (fun r => year (msg r) =? y) df_messages))))
    (stable_sort Z.ltb (remove_dups (List.map (fun r => year (msg r)) df_messages))).

(** Lines 146-158: ["Messages in {}: {}".format(year, count)] for each
    entry of the series. *)
Definition get_messages_per_year (df_messages : DataFrame) : list string :=
  List.map
    (fun item => ("Messages in " ++ Ranker.str (fst item) ++ ": "
                  ++ Ranker.str (snd item))%string)
    (messages_per_year df_messages).

End Yearly.

(** ** Presentation: the series that [plot_messages_by_sender_over_time] draws *)

Module Plot.

(** Line 172: [df_messages[df_messages["sender"] == sender]]; a missing
    sender is equal to no string. *)
Definition df_one_sender (df_messages : DataFrame) (sender' : string) : DataFrame :=
  Filters.select df_messages
    (List.map (fun r => bool_decide (sender r = Some sender')) df_messages).

(** Line 174: [df_one_sender.groupby("year_month")["message_id"].count()],
    the months of the sender in ascending order with their message counts. *)
Definition df_sender_counts (df_messages : DataFrame) (sender' : string) : list (Z * Z) :=
  let one := df_one_sender df_messages sender' in
  List.map
    (fun p => (p, Z.of_nat (length (List.filter (fun r => year_month (msg r) =? p) one))))
    (stable_sort Z.ltb (remove_dups (List.map (fun r => year_month (msg r)) one))).

End Plot.

(** ** Notions used to state further properties *)

Module Counts.

(** Sum of a list of integers. *)
Definition sumZ (l : list Z) : Z := fold_right Z.add 0 l.


(** The rows of conversation [c], as [single_chat] selects them. *)
Definition of_chat (c : Z) (r : JoinedRow) : bool := Filters.cell_eqb (chat_id r) c.

(** Number of rows of a table with conversation id [c]. *)
Definition rows_of_chat (df : DataFrame) (c : Z) : nat :=
  length (List.filter (fun r => bool_decide (chat_id r = Some c)) df).

(** Every sender of the table is a non-empty string. *)
Definition named_senders (df : DataFrame) : Prop :=
  Forall (fun r => exists s, sender r = Some s /\ s <> "") df.

(** A series of counts by an integer key: the keys that occur, ascending,
    each with the number of rows that have it. *)
Definition series_by (key : JoinedRow -> Z) (l : DataFrame) : list (Z * Z) :=
  List.map (fun k => (k, Z.of_nat (length (List.filter (fun r => key r =? k) l))))
    (stable_sort Z.ltb (remove_dups (List.map key l))).

(** Number of rows of period [p] in a part of the index of a table. *)
Definition in_month (p : Z) (l : list Aggregators.group_key) : Z :=
  Z.of_nat (length (List.filter (fun k => fst k =? p) l)).


End Counts.

(** ** Rows for the examples *)

(** A row with the given conversation id and sender, other columns fixed. *)
Definition msg0 : Message :=
  mkMessage None None 0 0 0 1 2022 624 0 0 0 0.

Definition row (c : option Z) (s : option string) : JoinedRow := mkRow msg0 s c.

(** A message with the given handle reference and id. *)
Definition message_with (h : option Z) (id : Z) : Message :=
  mkMessage (Some "hi") h 0 0 0 1 2022 624 0 0 0 id.

(** A message of the given month by the given sender. *)
Definition sent (p : Z) (s : string) : JoinedRow :=
  mkRow (mkMessage None None 0 0 0 1 2022 p 0 0 0 0) (Some s) (Some 1).

(** * Part II: properties *)

(** ** The joiner *)

Module JoinerFacts.
Import Joiner.









End JoinerFacts.


(** Three messages, two handles, three links: message 11 is in two
    conversations, message 12 in none and without a handle. *)
Example merge_data_example :
  Joiner.merge_data
    [message_with (Some 1) 10; message_with (Some 2) 11; message_with None 12]
    [mkHandle 1 "Alice"; mkHandle 2 "Bob"]
    [mkJoin (Some 5) (Some 10); mkJoin (Some 5) (Some 11); mkJoin (Some 7) (Some 11)]
  = [mkRow (message_with (Some 1) 10) (Some "Alice") (Some 5);
     mkRow (message_with (Some 2) 11) (Some "Bob") (Some 5);
     mkRow (message_with (Some 2) 11) (Some "Bob") (Some 7);
     mkRow (message_with None 12) None None].
Proof. reflexivity. Qed.


(** *** Facts about dictionaries *)

Section PyDictFacts.

Context {K V : Type} `{EqDecision K}.
Implicit Types (d : list (K * V)) (k : K) (v : V).

Lemma dict_get_set_eq d k v : dict_get (dict_set d k v) k = Some v.
Proof.
  induction d as [|[k' v'] d IH]; simpl.
  - rewrite decide_True; done.
  - destruct (decide (k' = k)) as [->|Hne]; simpl.
    + rewrite decide_True; done.
    + rewrite decide_False; done.
Qed.

Lemma dict_get_set_ne d k k' v : k ≠ k' -> dict_get (dict_set d k v) k' = dict_get d k'.
Proof.
  intros Hne. induction d as [|[k0 v0] d IH]; simpl.
  - rewrite decide_False; done.
  - destruct (decide (k0 = k)) as [->|Hne0]; simpl.
    + rewrite !decide_False; done.
    + rewrite IH. done.
Qed.

Lemma dict_get_snoc_ne d k k' v : k ≠ k' -> dict_get (d ++ [(k, v)]) k' = dict_get d k'.
Proof.
  intros Hne. induction d as [|[k0 v0] d IH]; simpl.
  - rewrite decide_False; done.
  - rewrite IH. done.
Qed.

Lemma dict_get_Some_In d k v : dict_get d k = Some v -> In (k, v) d.
Proof.
  induction d as [|[k0 v0] d IH]; simpl; [done|].
  destruct (decide (k0 = k)) as [->|Hne].
  - intros [= ->]. by left.
  - intros Hg. right. by apply IH.
Qed.

Lemma dict_get_None_notin d k : dict_get d k = None <-> ~ In k (List.map fst d).
Proof.
  induction d as [|[k0 v0] d IH]; simpl; [tauto|].
  destruct (decide (k0 = k)) as [->|Hne].
  - split; [done|]. intros Hn. exfalso. apply Hn. by left.
  - rewrite IH. split; [|tauto]. intros Hn [?|?]; [done|tauto].
Qed.

Lemma dict_set_keys_present d k v :
  In k (List.map fst d) -> List.map fst (dict_set d k v) = List.map fst d.
Proof.
  induction d as [|[k0 v0] d IH]; simpl; [done|].
  destruct (decide (k0 = k)) as [->|Hne]; simpl; [done|].
  intros [?|Hin]; [done|]. by rewrite IH.
Qed.

Lemma dict_set_keys_absent d k v :
  ~ In k (List.map fst d) -> dict_set d k v = d ++ [(k, v)].
Proof.
  induction d as [|[k0 v0] d IH]; simpl; [done|].
  destruct (decide (k0 = k)) as [->|Hne]; simpl.
  - intros Hn. exfalso. apply Hn. by left.
  - intros Hn. rewrite IH; [done|tauto].
Qed.

Lemma dict_get_set d k k' v :
  dict_get (dict_set d k v) k' = if decide (k = k') then Some v else dict_get d k'.
Proof.
  destruct (decide (k = k')) as [->|Hne];
    [apply dict_get_set_eq|by apply dict_get_set_ne].
Qed.

Lemma dict_set_NoDup d k v :
  NoDup (List.map fst d) -> NoDup (List.map fst (dict_set d k v)).
Proof.
  intros Hnd. destruct (dict_get d k) as [v'|] eqn:Hg.
  - rewrite dict_set_keys_present; [done|].
    apply dict_get_Some_In in Hg. apply (in_map fst) in Hg. exact Hg.
  - apply dict_get_None_notin in Hg. rewrite dict_set_keys_absent by done.
    rewrite map_app. apply NoDup_app. split; [done|]. split.
    + intros x Hx Hx'. apply list_elem_of_In in Hx.
      simpl in Hx'. apply list_elem_of_singleton in Hx'. subst x. done.
    + apply NoDup_singleton.
Qed.

Lemma dict_In_lookup d k v :
NoDup (List.map fst d) -> In (k, v) d -> dict_get d k = Some v.
Proof.
induction d as [|[k0 v0] d IH]; simpl; [done|].
intros Hnd. apply NoDup_cons in Hnd as [Hnotin Hnd].
intros [[= -> ->]|Hin]; [by rewrite decide_True|].
rewrite decide_False; [by apply IH|].
intros ->. apply Hnotin, list_elem_of_In. apply (in_map fst) in Hin. exact Hin.
Qed.

End PyDictFacts.

(** ** The conversation classifier *)

Module ClassifierFacts.
Import Classifier.

Lemma scan_app (l l' : DataFrame) : scan (l ++ l') = fold_left scan_row l' (scan l).
Proof. unfold scan. apply fold_left_app. Qed.

Lemma scan_snoc (l : DataFrame) (r : JoinedRow) : scan (l ++ [r]) = scan_row (scan l) r.
Proof. rewrite scan_app. reflexivity. Qed.

(** The banned set only grows. *)
Lemma banned_mono_row (st : scan_state) (r : JoinedRow) :
  banned_ids st ⊆ banned_ids (scan_row st r).
Proof.
  unfold scan_row. destruct (chat_id r) as [c|]; simpl; [|done].
  destruct (dict_get _ _) as [v|]; simpl; [|done].
  destruct (truthy v); simpl; [|done].
  destruct (py_ne v (sender r)); simpl; set_solver.
Qed.

Lemma banned_mono_fold (l : DataFrame) (st : scan_state) :
  banned_ids st ⊆ banned_ids (fold_left scan_row l st).
Proof.
  revert st. induction l as [|r l IH]; intros st; simpl; [done|].
  etrans; [apply banned_mono_row|apply IH].
Qed.

(** A row of another conversation leaves an id's entry and status alone. *)
Lemma scan_row_other (st : scan_state) (r : JoinedRow) (c : Z) :
  chat_id r ≠ Some c ->
  dict_get (ids_to_senders (scan_row st r)) (Some c)
    = dict_get (ids_to_senders st) (Some c)
  /\ (c ∈ banned_ids (scan_row st r) <-> c ∈ banned_ids st).
Proof.
  intros Hne. unfold scan_row. destruct (chat_id r) as [c'|]; simpl.
  - assert (Some c' ≠ Some c) as Hk by done.
    assert (c' ≠ c) as Hc by congruence.
    destruct (dict_get _ (Some c')) as [v|]; simpl.
    + destruct (truthy v); simpl.
      * destruct (py_ne v (sender r)); simpl; [|done].
        split; [done|]. rewrite elem_of_union, elem_of_singleton.
        split; [intros [?|?]; [congruence|done]|tauto].
      * by rewrite dict_get_set_ne.
    + by rewrite dict_get_set_ne.
  - by rewrite dict_get_snoc_ne.
Qed.

Lemma scan_fold_other (l : DataFrame) (st : scan_state) (c : Z) :
  (forall r, In r l -> chat_id r ≠ Some c) ->
  dict_get (ids_to_senders (fold_left scan_row l st)) (Some c)
    = dict_get (ids_to_senders st) (Some c)
  /\ (c ∈ banned_ids (fold_left scan_row l st) <-> c ∈ banned_ids st).
Proof.
  revert st. induction l as [|r l IH]; intros st Hall; simpl; [done|].
  destruct (IH (scan_row st r)) as [E1 E2].
  { intros r' Hin. apply Hall. by right. }
  destruct (scan_row_other st r c) as [E3 E4].
  { apply Hall. by left. }
  rewrite E1, E2, E3, E4. done.
Qed.

(** A truthy recorded sender is never replaced. *)
Lemma recorded_truthy_row (st : scan_state) (r : JoinedRow) (c : Z) (v : option string) :
  dict_get (ids_to_senders st) (Some c) = Some v -> truthy v = true ->
  dict_get (ids_to_senders (scan_row st r)) (Some c) = Some v.
Proof.
  intros Hg Ht.
  destruct (decide (chat_id r = Some c)) as [Heq|Hne].
  - unfold scan_row. rewrite Heq, Hg, Ht. simpl.
    destruct (py_ne v (sender r)); simpl; done.
  - destruct (scan_row_other st r c Hne) as [-> _]. done.
Qed.

Lemma recorded_truthy_fold (l : DataFrame) (st : scan_state) (c : Z) (v : option string) :
  dict_get (ids_to_senders st) (Some c) = Some v -> truthy v = true ->
  dict_get (ids_to_senders (fold_left scan_row l st)) (Some c) = Some v.
Proof.
  revert st. induction l as [|r l IH]; intros st Hg Ht; simpl; [done|].
  apply IH; [|done]. by apply recorded_truthy_row.
Qed.

(** A row that meets a true recorded sender different from its own
    bans the conversation. *)
Lemma scan_row_conflict (st : scan_state) (r : JoinedRow) (c : Z) (v : option string) :
  chat_id r = Some c -> dict_get (ids_to_senders st) (Some c) = Some v ->
  truthy v = true -> py_ne v (sender r) = true ->
  c ∈ banned_ids (scan_row st r).
Proof.
  intros Hc Hg Ht Hne. unfold scan_row. rewrite Hc, Hg, Ht, Hne. simpl.
  apply elem_of_union. left. by apply elem_of_singleton.
Qed.

(** An id gets into the banned set only at a row of its own. *)
Lemma banned_seen (l : DataFrame) (c : Z) :
  c ∈ banned_ids (scan l) -> exists r, In r l /\ chat_id r = Some c.
Proof.
  induction l as [|r l IH] using rev_ind.
  - unfold scan. simpl. set_solver.
  - rewrite scan_snoc. intros Hb.
    destruct (decide (chat_id r = Some c)) as [Heq|Hne].
    + exists r. split; [|done]. apply in_or_app. right. by left.
    + apply (scan_row_other (scan l) r c) in Hne as [_ Hiff].
      apply Hiff, IH in Hb as [r' [Hin Hc]].
      exists r'. split; [|done]. apply in_or_app. by left.
Qed.

(** Every banned id is a key of [ids_to_senders], so the [del] of line 94
    never raises [KeyError]. *)
Lemma banned_is_key (l : DataFrame) (c : Z) :
  c ∈ banned_ids (scan l) -> is_Some (dict_get (ids_to_senders (scan l)) (Some c)).
Proof.
  induction l as [|r l IH] using rev_ind.
  - unfold scan. simpl. set_solver.
  - rewrite scan_snoc.
    destruct (decide (chat_id r = Some c)) as [Heq|Hne].
    + intros _. unfold scan_row. rewrite Heq.
      destruct (dict_get _ _) as [v|] eqn:Hg; simpl.
      * destruct (truthy v); simpl.
        -- destruct (py_ne v (sender r)); simpl; rewrite Hg; eauto.
        -- rewrite dict_get_set_eq. eauto.
      * rewrite dict_get_set_eq. eauto.
    + destruct (scan_row_other (scan l) r c Hne) as [-> Hiff].
      intros Hb. apply IH, Hiff, Hb.
Qed.

End ClassifierFacts.

(** *** The inversion of [get_dm_chat_ids] *)

Module InvertFacts.
Import Classifier.

Lemma invert_snoc ids e : invert (ids ++ [e]) = dict_set (invert ids) (snd e) (fst e).
Proof. unfold invert. rewrite fold_left_app. reflexivity. Qed.



Lemma invert_In ids s k : In (s, k) (invert ids) -> In (k, s) ids.
Proof.
  induction ids as [|[k0 s0] ids IH] using rev_ind; [done|].
  rewrite invert_snoc. simpl. intros Hin.
  assert (Hcases : forall (d : list (option string * option Z)),
             In (s, k) (dict_set d s0 k0) -> (s, k) = (s0, k0) \/ In (s, k) d).
  { clear. induction d as [|[s1 k1] d IHd]; simpl.
    - intros [?|[]]. by left.
    - destruct (decide (s1 = s0)) as [->|Hne]; simpl.
      + intros [?|?]; [by left|]. right. by right.
      + intros [?|Hin]; [right; by left|].
        destruct (IHd Hin); [by left|]. right. by right. }
  apply in_or_app. destruct (Hcases _ Hin) as [[= -> ->]|Hin'].
  - right. by left.
  - left. by apply IH.
Qed.

Lemma real_keys_snoc_None ids s : real_keys (ids ++ [(None, s)]) = real_keys ids.
Proof. induction ids as [|[[c|] v] ids IH]; simpl; by rewrite ?IH. Qed.

Lemma real_keys_dict_set ids (c : Z) s :
  real_keys (dict_set ids (Some c) s)
  = match dict_get ids (Some c) with
    | Some _ => real_keys ids
    | None => real_keys ids ++ [c]
    end.
Proof.
  induction ids as [|[k v] ids IH]; simpl; [done|].
  destruct (decide (k = Some c)) as [->|Hne]; simpl; [done|].
  rewrite IH. destruct k as [c'|]; destruct (dict_get ids (Some c)); done.
Qed.

Lemma real_keys_elem ids (c : Z) :
  c ∈ real_keys ids <-> is_Some (dict_get ids (Some c)).
Proof.
  induction ids as [|[k v] ids IH]; simpl.
  - split; [intros H; by apply elem_of_nil in H|intros [? [=]]].
  - destruct (decide (k = Some c)) as [->|Hne]; simpl.
    + split; [eauto|]. intros _. by left.
    + rewrite <- IH. destruct k as [c'|]; simpl; [|done].
      rewrite elem_of_cons. split; [intros [->|?]; done|tauto].
Qed.

Lemma scan_real_keys_NoDup (l : DataFrame) : NoDup (real_keys (ids_to_senders (scan l))).
Proof.
  induction l as [|r l IH] using rev_ind; [constructor|].
  rewrite ClassifierFacts.scan_snoc. unfold scan_row.
  destruct (chat_id r) as [c|]; simpl.
  - assert (Hset : NoDup (real_keys (dict_set (ids_to_senders (scan l)) (Some c) (sender r)))).
    { rewrite real_keys_dict_set.
      destruct (dict_get _ _) eqn:Hg; [done|].
      apply NoDup_app. split; [done|]. split; [|apply NoDup_singleton].
      intros x Hx Hx'. apply list_elem_of_singleton in Hx'. subst x.
      apply real_keys_elem in Hx. rewrite Hg in Hx. by destruct Hx. }
    destruct (dict_get _ _) as [v|]; simpl; [|done].
    destruct (truthy v); simpl; [|done].
    destruct (py_ne v (sender r)); done.
  - by rewrite real_keys_snoc_None.
Qed.

Lemma delete_banned_lookup (st : scan_state) (c : Z) :
  dict_get (delete_banned st) (Some c)
  = if decide (c ∈ banned_ids st) then None else dict_get (ids_to_senders st) (Some c).
Proof.
  unfold delete_banned. induction (ids_to_senders st) as [|[k v] ids IH]; simpl.
  - by destruct (decide _).
  - destruct k as [c'|]; simpl.
    + destruct (decide (Some c' = Some c)) as [[= ->]|Hne].
      * destruct (decide (c ∈ banned_ids st)) as [Hb|Hb].
        -- rewrite bool_decide_eq_true_2 by done. simpl. exact IH.
        -- rewrite bool_decide_eq_false_2 by done. simpl. by rewrite decide_True.
      * destruct (bool_decide (c' ∈ banned_ids st)); simpl; [done|].
        by rewrite decide_False.
    + exact IH.
Qed.


End InvertFacts.

(** *** The classifier invariant *)

Module InvariantFacts.
Import Classifier ClassifierFacts.

Lemma py_ne_false (a b : option string) : py_ne a b = false -> a = b.
Proof.
  destruct a as [x|], b as [y|]; simpl; try discriminate.
  intros H. apply negb_false_iff, bool_decide_eq_true in H. by subst.
Qed.

(** A recorded sender is the sender of some row of that conversation. *)
Lemma recorded_from_row (l : DataFrame) (c : Z) (v : option string) :
  dict_get (ids_to_senders (scan l)) (Some c) = Some v ->
  exists r, In r l /\ chat_id r = Some c /\ sender r = v.
Proof.
  induction l as [|r l IH] using rev_ind; [discriminate|].
  rewrite scan_snoc. intros Hg.
  assert (Hold : dict_get (ids_to_senders (scan l)) (Some c) = Some v ->
                 exists r0, In r0 (l ++ [r]) /\ chat_id r0 = Some c /\ sender r0 = v).
  { intros H. destruct (IH H) as [r0 [Hin Hr0]]. exists r0. split; [|done].
    apply in_or_app. by left. }
  assert (Hnew : chat_id r = Some c -> sender r = v ->
                 exists r0, In r0 (l ++ [r]) /\ chat_id r0 = Some c /\ sender r0 = v).
  { intros Hc Hs. exists r. split; [|done]. apply in_or_app. right. by left. }
  destruct (decide (chat_id r = Some c)) as [Heq|Hne].
  - unfold scan_row in Hg. rewrite Heq in Hg.
    destruct (dict_get (ids_to_senders (scan l)) (Some c)) as [v0|] eqn:Hg0; simpl in Hg.
    + destruct (truthy v0); simpl in Hg.
      * destruct (py_ne v0 (sender r)); simpl in Hg; rewrite Hg0 in Hg; by apply Hold.
      * rewrite dict_get_set_eq in Hg. injection Hg as Hs. by apply Hnew.
    + rewrite dict_get_set_eq in Hg. injection Hg as Hs. by apply Hnew.
  - destruct (scan_row_other (scan l) r c Hne) as [E _]. rewrite E in Hg. by apply Hold.
Qed.

(** When no sender of the table is the empty string, every row of a
    conversation that is not banned carries the recorded sender. *)
Lemma nonbanned_recorded (l : DataFrame) :
  Forall (fun r => truthy (sender r) = true) l ->
  forall c r, c ∉ banned_ids (scan l) -> In r l -> chat_id r = Some c ->
    dict_get (ids_to_senders (scan l)) (Some c) = Some (sender r).
Proof.
  induction l as [|r l IH] using rev_ind; intros Hall c r' Hnb Hin Hc; [destruct Hin|].
  apply Forall_app in Hall as [Hall Hr]. specialize (IH Hall c).
  rewrite scan_snoc in *.
  assert (Hnb0 : c ∉ banned_ids (scan l)).
  { intros Hb. apply Hnb. by apply banned_mono_row. }
  destruct (decide (chat_id r = Some c)) as [Heq|Hne].
  - unfold scan_row in *. rewrite Heq in *.
    destruct (dict_get (ids_to_senders (scan l)) (Some c)) as [v|] eqn:Hg; simpl in *.
    + assert (truthy v = true) as Ht.
      { destruct (recorded_from_row l c v Hg) as [r0 [Hin0 [_ <-]]].
        rewrite Forall_forall in Hall. apply Hall. by apply list_elem_of_In. }
      rewrite Ht in *. simpl in *.
      destruct (py_ne v (sender r)) eqn:Hne; simpl in *.
      * exfalso. apply Hnb. set_solver.
      * apply py_ne_false in Hne. rewrite Hg.
        apply in_app_or in Hin as [Hin|[<-|[]]]; [|by rewrite Hne].
        by apply IH.
    + rewrite dict_get_set_eq.
      apply in_app_or in Hin as [Hin|[<-|[]]]; [|done].
      specialize (IH r' Hnb0 Hin Hc). discriminate.
  - destruct (scan_row_other (scan l) r c Hne) as [-> _].
    apply in_app_or in Hin as [Hin|[<-|[]]]; [|done].
    by apply IH.
Qed.

(** So on tables without empty-string senders the invariant holds. *)
Lemma nonbanned_same_sender (df : DataFrame) :
  Forall (fun r => truthy (sender r) = true) df ->
  same_sender_outside df (get_group_chat_ids df).
Proof.
  intros Hall c r1 r2 Hnb H1 H2 Hc1 Hc2.
  pose proof (nonbanned_recorded df Hall c r1 Hnb H1 Hc1) as E1.
  pose proof (nonbanned_recorded df Hall c r2 Hnb H2 Hc2) as E2.
  congruence.
Qed.

End InvariantFacts.

(** Scenario C of the specification. *)
Example scenario_C :
  let df := [row (Some 5) (Some "Alice"); row (Some 7) (Some "Alice");
             row (Some 5) (Some "Alice"); row (Some 7) (Some "Alice");
             row (Some 5) (Some "Bob")] in
  Classifier.get_group_chat_ids df = {[5]}
  /\ Classifier.get_dm_chat_ids df = [(Some "Alice", Some 7)].
Proof. split; vm_compute; reflexivity. Qed.

(** C1. The table with the rows (5, "") and (5, "Alice"): the empty
    string recorded for conversation 5 is false under [not], so the second
    row is taken for a first sighting and replaces it.  Conversation 5 is
    not banned although its two rows differ in sender; the invariant of
    the specification fails on this table. *)
Theorem classifier_invariant_empty_sender :
  let df := [row (Some 5) (Some ""); row (Some 5) (Some "Alice")] in
  Classifier.get_group_chat_ids df = ∅
  /\ Classifier.get_dm_chat_ids df = [(Some "Alice", Some 5)]
  /\ ~ Classifier.same_sender_outside df (Classifier.get_group_chat_ids df).
Proof.
  assert (E : Classifier.get_group_chat_ids
                [row (Some 5) (Some ""); row (Some 5) (Some "Alice")] = ∅)
    by (vm_compute; reflexivity).
  split; [exact E|]. split; [vm_compute; reflexivity|].
  intros Hinv.
  specialize (Hinv 5 (row (Some 5) (Some "")) (row (Some 5) (Some "Alice"))).
  rewrite E in Hinv.
  assert (Some "" = Some "Alice") as Habs; [|discriminate Habs].
  apply Hinv; [set_solver|by left|right; by left|reflexivity|reflexivity].
Qed.

(** C2. A conversation id [c] whose first row [r0] has a null sender is
    recorded with that null sender and is not banned by that row.  Every
    later row [r1] of the conversation with a non-null sender leaves [c] in
    the banned set, so this holds at the first such row; when no row of
    [c] lies between [r0] and [r1], it is [r1] that adds it.  Both
    functions run this scan: [get_group_chat_ids] returns [c] and
    [get_dm_chat_ids] maps no sender to [c]. *)
Theorem null_first_sender_banned (pre mid post : DataFrame) (r0 r1 : JoinedRow) (c : Z) :
  (forall r, In r pre -> chat_id r ≠ Some c) ->
  chat_id r0 = Some c -> sender r0 = None ->
  chat_id r1 = Some c -> sender r1 ≠ None ->
  dict_get (Classifier.ids_to_senders (Classifier.scan (pre ++ [r0]))) (Some c) = Some None
  /\ (c ∉ Classifier.banned_ids (Classifier.scan (pre ++ [r0])))
  /\ ((forall r, In r mid -> chat_id r ≠ Some c) ->
      c ∉ Classifier.banned_ids (Classifier.scan (pre ++ [r0] ++ mid)))
  /\ c ∈ Classifier.banned_ids (Classifier.scan (pre ++ [r0] ++ mid ++ [r1]))
  /\ c ∈ Classifier.get_group_chat_ids (pre ++ [r0] ++ mid ++ [r1] ++ post)
  /\ (forall s, ~ In (s, Some c)
                  (Classifier.get_dm_chat_ids (pre ++ [r0] ++ mid ++ [r1] ++ post))).
Proof.
  intros Hpre Hc0 Hs0 Hc1 Hs1. rewrite !app_assoc.
  destruct (ClassifierFacts.scan_fold_other pre Classifier.scan_init c Hpre) as [Eg Eb].
  fold (Classifier.scan pre) in Eg, Eb. simpl in Eg.
  assert (Hrec : dict_get (Classifier.ids_to_senders (Classifier.scan (pre ++ [r0])))
                   (Some c) = Some None).
  { rewrite ClassifierFacts.scan_snoc. unfold Classifier.scan_row.
    rewrite Hc0, Eg. simpl. rewrite dict_get_set_eq. by rewrite Hs0. }
  assert (Hnb : c ∉ Classifier.banned_ids (Classifier.scan (pre ++ [r0]))).
  { rewrite ClassifierFacts.scan_snoc. unfold Classifier.scan_row.
    rewrite Hc0, Eg. simpl. rewrite Eb. simpl. apply not_elem_of_empty. }
  assert (Hban : c ∈ Classifier.banned_ids (Classifier.scan (((pre ++ [r0]) ++ mid) ++ [r1]))).
  { rewrite ClassifierFacts.scan_snoc, ClassifierFacts.scan_app.
    apply (ClassifierFacts.scan_row_conflict _ r1 c None); [done| |done|done].
    by apply ClassifierFacts.recorded_truthy_fold. }
  assert (Hfin : c ∈ Classifier.get_group_chat_ids ((((pre ++ [r0]) ++ mid) ++ [r1]) ++ post)).
  { unfold Classifier.get_group_chat_ids.
    rewrite ClassifierFacts.scan_app. by apply ClassifierFacts.banned_mono_fold. }
  split; [exact Hrec|]. split; [exact Hnb|]. split; [|split; [exact Hban|split; [exact Hfin|]]].
  - intros Hmid. rewrite ClassifierFacts.scan_app.
    destruct (ClassifierFacts.scan_fold_other mid (Classifier.scan (pre ++ [r0])) c Hmid)
      as [_ ->]. exact Hnb.
  - intros s Hin. unfold Classifier.get_dm_chat_ids in Hin.
    apply InvertFacts.invert_In in Hin.
    apply (in_map fst) in Hin. revert Hin.
    apply (dict_get_None_notin (Classifier.delete_banned _) (Some c)).
    rewrite InvertFacts.delete_banned_lookup. by rewrite decide_True.
Qed.

Lemma null_first_sender_banned_witness :
  5 ∈ Classifier.get_group_chat_ids
        ([row (Some 7) (Some "Bob")] ++ [row (Some 5) None]
           ++ [row (Some 7) (Some "Bob")] ++ [row (Some 5) (Some "Alice")]
           ++ [row (Some 5) None]).
Proof.
  apply (null_first_sender_banned [row (Some 7) (Some "Bob")] [row (Some 7) (Some "Bob")]
           [row (Some 5) None] (row (Some 5) None) (row (Some 5) (Some "Alice")) 5).
  - intros r [<-|[]]. simpl. discriminate.
  - reflexivity.
  - reflexivity.
  - reflexivity.
  - simpl. discriminate.
Defined.

(** C5. The banned set of a prefix of the table is contained in the
    banned set of the whole table.  In particular, when a row [r] of
    conversation [c] meets a recorded sender that is true under [not] and
    differs from its own, [c] is banned at that row and is in the set that
    [get_group_chat_ids] returns whatever rows follow. *)
Theorem banned_set_monotonic (pre post : DataFrame) (r : JoinedRow) (c : Z)
    (recorded : option string) :
  Classifier.get_group_chat_ids pre ⊆ Classifier.get_group_chat_ids (pre ++ post)
  /\ (chat_id r = Some c ->
      dict_get (Classifier.ids_to_senders (Classifier.scan pre)) (Some c) = Some recorded ->
      Classifier.truthy recorded = true ->
      Classifier.py_ne recorded (sender r) = true ->
      c ∈ Classifier.banned_ids (Classifier.scan (pre ++ [r]))
      /\ c ∈ Classifier.get_group_chat_ids (pre ++ [r] ++ post)).
Proof.
  split.
  - unfold Classifier.get_group_chat_ids. rewrite ClassifierFacts.scan_app.
    apply ClassifierFacts.banned_mono_fold.
  - intros Hc Hg Ht Hne.
    assert (Hb : c ∈ Classifier.banned_ids (Classifier.scan (pre ++ [r]))).
    { rewrite ClassifierFacts.scan_snoc.
      by apply (ClassifierFacts.scan_row_conflict _ r c recorded). }
    split; [exact Hb|].
    unfold Classifier.get_group_chat_ids.
    rewrite app_assoc, ClassifierFacts.scan_app.
    by apply ClassifierFacts.banned_mono_fold.
Qed.

Lemma banned_set_monotonic_witness :
  5 ∈ Classifier.get_group_chat_ids
        ([row (Some 5) (Some "Alice")] ++ [row (Some 5) (Some "Bob")]
           ++ [row (Some 5) (Some "Alice"); row (Some 5) (Some "Alice")]).
Proof.
  apply (banned_set_monotonic [row (Some 5) (Some "Alice")]
           [row (Some 5) (Some "Alice"); row (Some 5) (Some "Alice")]
           (row (Some 5) (Some "Bob")) 5 (Some "Alice")).
  - reflexivity.
  - reflexivity.
  - reflexivity.
  - reflexivity.
Defined.


(** A second row of the conversation with a null sender bans it as well:
    [NaN != NaN] holds. *)
Example null_then_null_banned :
  Classifier.get_group_chat_ids [row (Some 5) None; row (Some 5) None] = {[5]}.
Proof. vm_compute. reflexivity. Qed.

(** A null conversation id is a new key at every row and is never banned. *)
Example null_chat_id_rows :
  let df := [row None (Some "Alice"); row None (Some "Bob")] in
  Classifier.get_group_chat_ids df = ∅
  /\ Classifier.get_dm_chat_ids df = [(Some "Alice", None); (Some "Bob", None)].
Proof. split; vm_compute; reflexivity. Qed.

(** Two conversations that never conflict and share a sender: the one met
    later survives the inversion. *)
Example dm_last_wins :
  Classifier.get_dm_chat_ids
    [row (Some 3) (Some "Alice"); row (Some 9) (Some "Alice");
     row (Some 3) (Some "Alice"); row (Some 4) (Some "Bob")]
  = [(Some "Alice", Some 9); (Some "Bob", Some 4)].
Proof. vm_compute. reflexivity. Qed.

(** ** The filters *)

Module FiltersFacts.
Import Filters.

Lemma select_map (f : JoinedRow -> bool) (df : DataFrame) :
  select df (List.map f df) = List.filter f df.
Proof.
  induction df as [|r df IH]; [reflexivity|].
  simpl. rewrite IH. reflexivity.
Qed.

Lemma select_sublist (df : DataFrame) (mask : list bool) : sublist (select df mask) df.
Proof.
  revert mask. induction df as [|r df IH]; intros mask; simpl.
  - destruct mask; constructor.
  - destruct mask as [|b mask]; [apply sublist_nil_l|].
    destruct b; [apply sublist_skip|apply sublist_cons]; apply IH.
Qed.




End FiltersFacts.

(** Scenario E of the specification. *)
Example scenario_E :
  Filters.remove_no_contact_senders
    [row (Some 1) (Some "+15551234567"); row (Some 2) (Some "Jordan");
     row (Some 3) (Some "jo@example.com"); row (Some 4) (Some "5551234")]
  = Returned [row (Some 2) (Some "Jordan")].
Proof. reflexivity. Qed.


(** C10. Each filter returns rows of its input, in the input's order and
    unchanged: the result is a sublist, hence a sub-multiset, of the input
    table.  The functions are pure: the input table is only read. *)
Theorem filters_return_submultiset (df : DataFrame) (c : Z) :
  (forall out, Filters.remove_no_contact_senders df = Returned out ->
     sublist out df /\ out ⊆+ df)
  /\ (sublist (Filters.filter_groups df) df /\ Filters.filter_groups df ⊆+ df)
  /\ (sublist (Filters.filter_funusha df) df /\ Filters.filter_funusha df ⊆+ df)
  /\ (sublist (Filters.single_chat df c) df /\ Filters.single_chat df c ⊆+ df).
Proof.
  assert (Hsel : forall mask, sublist (Filters.select df mask) df
                              /\ Filters.select df mask ⊆+ df).
  { intros mask. split; [|apply sublist_submseteq]; apply FiltersFacts.select_sublist. }
  split; [|split; [|split]]; try apply Hsel.
  intros out. unfold Filters.remove_no_contact_senders.
  destruct (Filters.invert_mask _) as [mask|e]; [|discriminate].
  intros [= <-]. apply Hsel.
Qed.

Lemma filters_return_submultiset_witness :
  sublist [row (Some 2) (Some "Jordan")]
          [row (Some 1) (Some "+15551234567"); row (Some 2) (Some "Jordan")].
Proof.
  apply (filters_return_submultiset
           [row (Some 1) (Some "+15551234567"); row (Some 2) (Some "Jordan")] 0).
  reflexivity.
Defined.

(** ** The entry point *)

(** C9. Whatever the rest of the script would do, a run prints the error
    line when no path is given and nothing otherwise, and in both cases
    leaves with status 1 at [sys.exit]: the code after it is never run. *)
Theorem main_always_exits_1 (analysis : list string -> Main.proc unit) (argv : list string) :
  Main.main analysis argv
  = (if (length argv <? 2)%nat
     then ["ERROR: Please provide the path to your chat.db file."]
     else [],
     inr 1).
Proof.
  unfold Main.main. destruct (length argv <? 2)%nat; reflexivity.
Qed.

Example main_without_path (analysis : list string -> Main.proc unit) :
  Main.main analysis ["message-analysis.py"]
  = (["ERROR: Please provide the path to your chat.db file."], inr 1).
Proof. reflexivity. Qed.

Example main_with_path (analysis : list string -> Main.proc unit) :
  Main.main analysis ["message-analysis.py"; "chat.db"] = ([], inr 1).
Proof. reflexivity. Qed.

(** ** Stable sorting *)

Section StableSortFacts.
Context {A : Type} (before : A -> A -> bool).

Lemma insert_sorted_perm (x : A) (l : list A) : Permutation (insert_sorted before x l) (x :: l).
Proof.
  induction l as [|y l IH]; simpl; [reflexivity|].
  destruct (before y x); [|reflexivity].
  rewrite IH. apply perm_swap.
Qed.

Lemma stable_sort_perm (l : list A) : Permutation (stable_sort before l) l.
Proof.
  induction l as [|x l IH]; simpl; [reflexivity|].
  rewrite insert_sorted_perm. by apply perm_skip.
Qed.



(** The result is sorted: no row has to come before its predecessor. *)
Hypothesis before_asym : forall a b, before a b = true -> before b a = false.

Lemma insert_sorted_sorted (x : A) (l : list A) :
  Sorted (fun a b => before b a = false) l ->
  Sorted (fun a b => before b a = false) (insert_sorted before x l).
Proof using before_asym.
  induction 1 as [|y l Hs IH Hhd]; simpl; [repeat constructor|].
  destruct (before y x) eqn:Hb.
  - constructor; [exact IH|].
    destruct l as [|z l]; simpl.
    + constructor. by apply before_asym.
    + destruct (before z x); constructor.
      * by inversion Hhd.
      * by apply before_asym.
  - constructor; [by constructor|]. by constructor.
Qed.

Lemma stable_sort_sorted (l : list A) :
  Sorted (fun a b => before b a = false) (stable_sort before l).
Proof using before_asym.
  induction l as [|x l IH]; simpl; [constructor|].
  by apply insert_sorted_sorted.
Qed.

End StableSortFacts.

(** ** The aggregator *)

Module AggregatorFacts.
Import Aggregators.

Lemma sort_before_asym (a b : counted) : sort_before a b = true -> sort_before b a = false.
Proof. unfold sort_before. lia. Qed.

Lemma sort_before_false (a b : counted) : sort_before b a = false <-> sorted_order a b.
Proof. unfold sort_before, sorted_order. lia. Qed.

#[local] Instance sorted_order_trans : Transitive sorted_order.
Proof. intros a b c. unfold sorted_order. lia. Qed.

Lemma sort_values_sorted (g : list counted) : StronglySorted sorted_order (sort_values g).
Proof.
  apply Sorted_StronglySorted; [apply sorted_order_trans|].
  pose proof (stable_sort_sorted sort_before sort_before_asym g) as Hs.
  unfold sort_values. induction Hs as [|x l Hs IH Hhd]; constructor; [exact IH|].
  destruct Hhd; constructor. by apply sort_before_false.
Qed.


(** [head] on a frame grouped by period keeps the first rows of each
    period, in the order of the frame. *)
Lemma count_period_cons_eq (p : Z) (l : list Z) :
  count_period p (p :: l) = count_period p l + 1.
Proof. unfold count_period. simpl. rewrite Z.eqb_refl. simpl. lia. Qed.

Lemma count_period_cons_ne (p q : Z) (l : list Z) :
  p ≠ q -> count_period p (q :: l) = count_period p l.
Proof.
  intros Hne. unfold count_period. simpl.
  destruct (Z.eqb_spec p q); [done|reflexivity].
Qed.

Lemma count_period_nonneg (p : Z) (l : list Z) : 0 <= count_period p l.
Proof. unfold count_period. lia. Qed.

Lemma head_from_period (n : nat) (p : Z) (l : list counted) (seen : list Z) :
  List.filter (in_period p) (head_from (Z.of_nat n) seen l)
  = firstn (n - Z.to_nat (count_period p seen)) (List.filter (in_period p) l).
Proof.
  revert seen. induction l as [|x l IH]; intros seen.
  - simpl. by rewrite firstn_nil.
  - pose proof (count_period_nonneg p seen) as Hnn.
    simpl head_from. rewrite (proj2 (Z.leb_le 0 (Z.of_nat n))) by lia.
    unfold in_period at 2. simpl List.filter.
    destruct (Z.eqb_spec (period_of x) p) as [Hp|Hp].
    + rewrite Hp.
      destruct (Z.ltb_spec (count_period p seen) (Z.of_nat n)) as [Hlt|Hge].
      * simpl List.filter. unfold in_period at 1. rewrite Hp, Z.eqb_refl.
        rewrite IH, count_period_cons_eq.
        replace (n - Z.to_nat (count_period p seen))%nat
          with (S (n - Z.to_nat (count_period p seen + 1)))%nat by lia.
        reflexivity.
      * rewrite IH, count_period_cons_eq.
        replace (n - Z.to_nat (count_period p seen))%nat with 0%nat by lia.
        replace (n - Z.to_nat (count_period p seen + 1))%nat with 0%nat by lia.
        reflexivity.
    + assert (Hcnt : count_period p (period_of x :: seen) = count_period p seen)
        by (apply count_period_cons_ne; congruence).
      destruct (count_period (period_of x) seen <? Z.of_nat n).
      * simpl List.filter. unfold in_period at 1.
        destruct (Z.eqb_spec (period_of x) p); [done|]. by rewrite IH, Hcnt.
      * by rewrite IH, Hcnt.
Qed.

Lemma groupby_head_period (n : nat) (p : Z) (l : list counted) :
  List.filter (in_period p) (groupby_head (Z.of_nat n) l)
  = firstn n (List.filter (in_period p) l).
Proof.
  unfold groupby_head. rewrite head_from_period.
  unfold count_period. simpl. by rewrite Nat.sub_0_r.
Qed.

(** The groups: one per key that occurs in the table. *)
Lemma group_keys_elem (df : DataFrame) (k : group_key) :
  In k (group_keys df) <-> exists r, In r df /\ row_key r = Some k.
Proof.
  unfold group_keys. rewrite <- list_elem_of_In.
  rewrite (stable_sort_perm key_before), elem_of_remove_dups, list_elem_of_omap.
  by setoid_rewrite list_elem_of_In.
Qed.

Lemma group_keys_NoDup (df : DataFrame) : NoDup (group_keys df).
Proof.
  unfold group_keys. rewrite (stable_sort_perm key_before).
  apply NoDup_remove_dups.
Qed.

Lemma message_count_pos (df : DataFrame) (k : group_key) :
  0 < message_count k df <-> exists r, In r df /\ row_key r = Some k.
Proof.
  unfold message_count. split.
  - intros Hpos.
    destruct (List.filter _ df) as [|r l] eqn:Hf; [simpl in Hpos; lia|].
    assert (Hin : In r (List.filter (fun r => bool_decide (row_key r = Some k)) df))
      by (rewrite Hf; by left).
    apply filter_In in Hin as [Hin Hk]. apply bool_decide_eq_true in Hk. eauto.
  - intros [r [Hin Hk]].
    assert (Hin' : In r (List.filter (fun r => bool_decide (row_key r = Some k)) df)).
    { apply filter_In. split; [done|]. by apply bool_decide_eq_true. }
    destruct (List.filter _ df); [destruct Hin'|]. simpl. lia.
Qed.


Lemma groupby_count_elem (df : DataFrame) (k : group_key) (c : Z) :
  In (k, c) (groupby_count df) <-> 0 < c /\ c = message_count k df.
Proof.
  unfold groupby_count. rewrite in_map_iff. split.
  - intros [k' [[= -> <-] Hin]]. split; [|done].
    apply message_count_pos. by apply group_keys_elem.
  - intros [Hpos ->]. exists k. split; [done|].
    apply group_keys_elem. by apply message_count_pos.
Qed.





End AggregatorFacts.

Module HeadFacts.
Import Aggregators AggregatorFacts.



Lemma head_from_In (n : Z) (seen : list Z) (l : list counted) (x : counted) :
  In x (head_from n seen l) -> In x l.
Proof.
  revert seen. induction l as [|y l IH]; intros seen; simpl; [done|].
  destruct (if 0 <=? n then _ else _).
  - intros [->|Hin]; [by left|]. right. by apply (IH _ Hin).
  - intros Hin. right. by apply (IH _ Hin).
Qed.


End HeadFacts.

(** Scenario D of the specification: four senders in one month, top 3. *)
Example scenario_D_top3 :
  Aggregators.get_top_senders_by_month
    [sent 624 "D"; sent 624 "B"; sent 624 "A"; sent 624 "C"; sent 624 "A";
     sent 624 "B"; sent 624 "A"; sent 624 "C"; sent 624 "B"; sent 624 "A";
     sent 625 "D"; mkRow msg0 None (Some 1)] 3
  = [((624, "A"), 4); ((624, "B"), 3); ((624, "C"), 2); ((625, "D"), 1)].
Proof. vm_compute. reflexivity. Qed.



(** ** The ranker *)

Module RankerFacts.
Import Aggregators Ranker.

Lemma rank_after_snoc (pre : list group_key) (q p : Z) (s : string) :
  rank_after (pre ++ [(q, s)]) p = if q =? p then 1 + rank_after pre p else 0.
Proof. unfold rank_after. rewrite rev_app_distr. reflexivity. Qed.



Lemma total_from_snoc (pre l : list group_key) (p : Z) (s' s : string) :
  total_from pre (l ++ [(p, s')]) s
  = total_from pre l s
    + (if bool_decide (s' = s) then 5 - rank_after (pre ++ l) p else 0).
Proof.
  revert pre. induction l as [|[q t] l IH]; intros pre; simpl.
  - rewrite app_nil_r. lia.
  - rewrite IH, <- app_assoc. simpl. lia.
Qed.

Lemma total_score_snoc (index : list group_key) (p : Z) (s' s : string) :
  total_score (index ++ [(p, s')]) s
  = total_score index s + (if bool_decide (s' = s) then 5 - rank_after index p else 0).
Proof. unfold total_score. by rewrite total_from_snoc. Qed.

Lemma rank_loop_snoc (index : list group_key) (k : group_key) :
  rank_loop (index ++ [k]) = rank_step (rank_loop index) k.
Proof. unfold rank_loop. by rewrite fold_left_app. Qed.

Lemma start_period_scores (st : rank_state) (p : Z) :
  senders_to_scores (start_period st p) = senders_to_scores st.
Proof. unfold start_period. by case_bool_decide. Qed.

Lemma start_period_cur (st : rank_state) (p : Z) :
  cur_year_month (start_period st p) = Some p.
Proof.
  unfold start_period. case_bool_decide as Hd; [reflexivity|].
  by destruct (decide (Some p = cur_year_month st)).
Qed.

Lemma start_period_rank (st : rank_state) (p : Z) :
  cur_rank (start_period st p)
  = if decide (cur_year_month st = Some p) then cur_rank st else 0.
Proof.
  unfold start_period. case_bool_decide as Hd.
  - by rewrite decide_False.
  - rewrite decide_True; [done|]. by destruct (decide (Some p = cur_year_month st)).
Qed.

(** The counter of the loop is the rank of the row to come. *)
Lemma rank_loop_counter (index : list group_key) :
  cur_year_month (rank_loop index) = fst <$> last index
  /\ (forall p, cur_rank (start_period (rank_loop index) p) = rank_after index p).
Proof.
  induction index as [|[q s] index [IHcur IHrank]] using rev_ind.
  - split; [reflexivity|]. intros p. reflexivity.
  - rewrite rank_loop_snoc, last_snoc.
    assert (Hcur : cur_year_month (rank_step (rank_loop index) (q, s)) = Some q)
      by apply start_period_cur.
    split; [exact Hcur|]. intros p.
    rewrite start_period_rank, Hcur, rank_after_snoc.
    destruct (decide (Some q = Some p)) as [[= ->]|Hne].
    + rewrite Z.eqb_refl. simpl. rewrite IHrank. lia.
    + destruct (Z.eqb_spec q p); [congruence|reflexivity].
Qed.

(** What one iteration does to the scores. *)
Lemma rank_step_scores (index : list group_key) (p : Z) (s : string) :
  senders_to_scores (rank_loop (index ++ [(p, s)]))
  = dict_set (senders_to_scores (rank_loop index)) s
      (default 0 (dict_get (senders_to_scores (rank_loop index)) s)
       + (5 - rank_after index p)).
Proof.
  rewrite rank_loop_snoc. destruct (rank_loop_counter index) as [_ Hrank].
  simpl. by rewrite start_period_scores, Hrank.
Qed.

Lemma scores_NoDup (index : list group_key) :
  NoDup (List.map fst (senders_to_scores (rank_loop index))).
Proof.
  induction index as [|[p s] index IH] using rev_ind; [constructor|].
  rewrite rank_step_scores. by apply dict_set_NoDup.
Qed.

Lemma scores_lookup (index : list group_key) (s : string) :
  (In s (List.map snd index) ->
   dict_get (senders_to_scores (rank_loop index)) s = Some (total_score index s))
  /\ (~ In s (List.map snd index) ->
      dict_get (senders_to_scores (rank_loop index)) s = None /\ total_score index s = 0).
Proof.
  induction index as [|[p s'] index [IHin IHout]] using rev_ind.
  - split; [intros []|]. intros _. split; reflexivity.
  - rewrite rank_step_scores, dict_get_set, total_score_snoc, map_app, in_app_iff.
    simpl. destruct (decide (s' = s)) as [->|Hne].
    + rewrite bool_decide_eq_true_2 by done. split; [intros _|intros Hn; tauto].
      f_equal. destruct (in_dec String.string_dec s (List.map snd index)) as [Hin|Hnin].
      * rewrite (IHin Hin). reflexivity.
      * destruct (IHout Hnin) as [-> ->]. reflexivity.
    + rewrite bool_decide_eq_false_2 by done. rewrite Z.add_0_r. split.
      * intros [Hin|[?|[]]]; [by apply IHin|done].
      * intros Hn. apply IHout. tauto.
Qed.

Lemma scores_elem (index : list group_key) (s : string) (v : Z) :
  In (s, v) (senders_to_scores (rank_loop index))
  <-> In s (List.map snd index) /\ v = total_score index s.
Proof.
  destruct (scores_lookup index s) as [Hin Hout]. split.
  - intros Hsv. apply dict_In_lookup in Hsv; [|apply scores_NoDup].
    destruct (in_dec String.string_dec s (List.map snd index)) as [Hs|Hs].
    + rewrite (Hin Hs) in Hsv. split; [done|congruence].
    + destruct (Hout Hs) as [E _]. congruence.
  - intros [Hs ->]. apply dict_get_Some_In. by apply Hin.
Qed.




End RankerFacts.

(** Scenario D of the specification, continued: the scores of one month. *)
Example scenario_D_scores :
  Ranker.compute_sender_scores [((624, "A"), 4); ((624, "B"), 3); ((624, "C"), 2)]
  = ["A: 5"; "B: 4"; "C: 3"].
Proof. vm_compute. reflexivity. Qed.

(** Seven senders in one month and a second month: ranks 5 and 6 score 0
    and -1, and totals add up over the months. *)
Example scores_not_floored :
  Ranker.compute_sender_scores
    [((624, "A"), 9); ((624, "B"), 8); ((624, "C"), 7); ((624, "D"), 6);
     ((624, "E"), 5); ((624, "F"), 4); ((624, "G"), 3);
     ((625, "G"), 2); ((625, "A"), 1)]
  = ["A: 9"; "B: 4"; "G: 4"; "C: 3"; "D: 2"; "E: 1"; "F: 0"].
Proof. vm_compute. reflexivity. Qed.

Example score_negative :
  Ranker.compute_sender_scores
    [((624, "A"), 9); ((624, "B"), 8); ((624, "C"), 7); ((624, "D"), 6);
     ((624, "E"), 5); ((624, "F"), 4); ((624, "G"), 3)]
  = ["A: 5"; "B: 4"; "C: 3"; "D: 2"; "E: 1"; "F: 0"; "G: -1"].
Proof. vm_compute. reflexivity. Qed.



(** * Part III: further properties *)

(** ** The joiner without assumptions on the handle table *)

Module MergeFacts.
Import Joiner.







End MergeFacts.





(** ** The non-contact filter *)

Module ContactFacts.
Import Filters.




End ContactFacts.




(** ** The classifier, conversation by conversation *)

Module LocalFacts.
Import Classifier ClassifierFacts Counts.

Lemma of_chat_true (c : Z) (r : JoinedRow) : of_chat c r = true <-> chat_id r = Some c.
Proof. unfold of_chat, Filters.cell_eqb. apply bool_decide_eq_true. Qed.

Lemma of_chat_false (c : Z) (r : JoinedRow) : of_chat c r = false <-> chat_id r ≠ Some c.
Proof. unfold of_chat, Filters.cell_eqb. apply bool_decide_eq_false. Qed.

(** What a row does to the entry and the status of its own conversation
    depends on that entry and status alone. *)
Lemma scan_row_local (st st' : scan_state) (r : JoinedRow) (c : Z) :
  chat_id r = Some c ->
  dict_get (ids_to_senders st) (Some c) = dict_get (ids_to_senders st') (Some c) ->
  (c ∈ banned_ids st <-> c ∈ banned_ids st') ->
  dict_get (ids_to_senders (scan_row st r)) (Some c)
    = dict_get (ids_to_senders (scan_row st' r)) (Some c)
  /\ (c ∈ banned_ids (scan_row st r) <-> c ∈ banned_ids (scan_row st' r)).
Proof.
  intros Hc Hg Hb. unfold scan_row. rewrite Hc, <- Hg.
  destruct (dict_get (ids_to_senders st) (Some c)) as [v|] eqn:Hgs; simpl.
  - destruct (truthy v); simpl.
    + destruct (py_ne v (sender r)); simpl.
      * split; [congruence|]. rewrite !elem_of_union. tauto.
      * split; [congruence|done].
    + rewrite !dict_get_set_eq. done.
  - rewrite !dict_get_set_eq. done.
Qed.

Lemma scan_local (df : DataFrame) (c : Z) :
  dict_get (ids_to_senders (scan df)) (Some c)
    = dict_get (ids_to_senders (scan (List.filter (of_chat c) df))) (Some c)
  /\ (c ∈ banned_ids (scan df) <-> c ∈ banned_ids (scan (List.filter (of_chat c) df))).
Proof.
  induction df as [|r df [IHg IHb]] using rev_ind; [done|].
  rewrite List.filter_app, scan_snoc. simpl.
  destruct (of_chat c r) eqn:Hr.
  - rewrite scan_snoc. apply scan_row_local; [by apply of_chat_true|done|done].
  - rewrite app_nil_r. apply of_chat_false in Hr.
    destruct (scan_row_other (scan df) r c Hr) as [-> ->]. done.
Qed.

(** A conversation is banned only at a row that differs, under [!=], from
    an earlier row of the conversation. *)
Lemma banned_conflict (df : DataFrame) (c : Z) :
  c ∈ banned_ids (scan df) ->
  exists r0 r, In r0 df /\ In r df /\ chat_id r0 = Some c /\ chat_id r = Some c
               /\ py_ne (sender r0) (sender r) = true.
Proof.
  induction df as [|r df IH] using rev_ind.
  - unfold scan. simpl. intros H. by apply not_elem_of_empty in H.
  - rewrite scan_snoc. intros Hb.
    assert (Hold : c ∈ banned_ids (scan df) ->
              exists r0 r1, In r0 (df ++ [r]) /\ In r1 (df ++ [r]) /\ chat_id r0 = Some c
                            /\ chat_id r1 = Some c /\ py_ne (sender r0) (sender r1) = true).
    { intros H. destruct (IH H) as (r0 & r1 & H0 & H1 & Hrest).
      exists r0, r1. split; [apply in_or_app; by left|].
      split; [apply in_or_app; by left|done]. }
    destruct (decide (chat_id r = Some c)) as [Heq|Hne].
    + unfold scan_row in Hb. rewrite Heq in Hb.
      destruct (dict_get (ids_to_senders (scan df)) (Some c)) as [v|] eqn:Hg; simpl in Hb;
        [|by apply Hold].
      destruct (truthy v); simpl in Hb; [|by apply Hold].
      destruct (py_ne v (sender r)) eqn:Hpy; simpl in Hb; [|by apply Hold].
      destruct (InvariantFacts.recorded_from_row df c v Hg) as (r0 & H0 & Hc0 & Hs0).
      exists r0, r. split; [apply in_or_app; by left|].
      split; [apply in_or_app; right; by left|]. rewrite Hs0. done.
    + apply (scan_row_other (scan df) r c Hne) in Hb. by apply Hold.
Qed.

Lemma filter_filter_sub {A : Type} (f g : A -> bool) (l : list A) :
  (forall x, g x = true -> f x = true) ->
  List.filter g (List.filter f l) = List.filter g l.
Proof.
  intros Hsub. induction l as [|x l IH]; [reflexivity|]. simpl.
  destruct (f x) eqn:Hf; simpl.
  - by rewrite IH.
  - destruct (g x) eqn:Hg; [|done]. rewrite (Hsub x Hg) in Hf. discriminate.
Qed.

Lemma filter_filter_none {A : Type} (f g : A -> bool) (l : list A) :
  (forall x, g x = true -> f x = false) ->
  List.filter g (List.filter f l) = [].
Proof.
  intros Hno. induction l as [|x l IH]; [reflexivity|]. simpl.
  destruct (f x) eqn:Hf; simpl; [|done].
  destruct (g x) eqn:Hg; [|done]. rewrite (Hno x Hg) in Hf. discriminate.
Qed.

Lemma filter_all {A : Type} (f : A -> bool) (l : list A) :
  (forall x, In x l -> f x = true) -> List.filter f l = l.
Proof.
  induction l as [|x l IH]; intros Hall; [reflexivity|]. simpl.
  rewrite Hall by (by left). f_equal. apply IH. intros y Hy. apply Hall. by right.
Qed.

Lemma filter_split {A : Type} (f : A -> bool) (l : list A) :
  Permutation (List.filter f l ++ List.filter (fun x => negb (f x)) l) l.
Proof.
  induction l as [|x l IH]; [reflexivity|]. simpl.
  destruct (f x); simpl.
  - by apply perm_skip.
  - rewrite <- Permutation_middle. by apply perm_skip.
Qed.

(** The rows that [filter_groups] keeps. *)
Lemma filter_groups_filter (df : DataFrame) :
  Filters.filter_groups df
  = List.filter (fun r => negb (Filters.isin (chat_id r) (get_group_chat_ids df))) df.
Proof. unfold Filters.filter_groups. apply FiltersFacts.select_map. Qed.

Lemma filter_groups_no_groups (df : DataFrame) :
  get_group_chat_ids (Filters.filter_groups df) = ∅.
Proof.
  apply elem_of_equiv_empty_L. intros c. unfold get_group_chat_ids.
  rewrite (proj2 (scan_local _ c)), filter_groups_filter.
  destruct (decide (c ∈ get_group_chat_ids df)) as [Hb|Hnb].
  - rewrite filter_filter_none; [unfold scan; simpl; apply not_elem_of_empty|].
    intros r Hr. apply of_chat_true in Hr. rewrite Hr. simpl.
    by rewrite bool_decide_eq_true_2.
  - rewrite filter_filter_sub; [by rewrite <- (proj2 (scan_local df c))|].
    intros r Hr. apply of_chat_true in Hr. rewrite Hr. simpl.
    by rewrite bool_decide_eq_false_2.
Qed.

Lemma real_key_lookup (d : list (option Z * option string)) (c : Z) (v : option string) :
  NoDup (real_keys d) -> In (Some c, v) d -> dict_get d (Some c) = Some v.
Proof.
  induction d as [|[k v0] d IH]; simpl; [done|].
  intros Hnd [[= -> ->]|Hin]; [by rewrite decide_True|].
  destruct k as [c'|].
  - apply NoDup_cons in Hnd as [Hnotin Hnd].
    rewrite decide_False; [by apply IH|].
    intros [= ->]. apply Hnotin. apply InvertFacts.real_keys_elem.
    rewrite (IH Hnd Hin). eauto.
  - rewrite decide_False by done. by apply IH.
Qed.

Lemma groups_char (df : DataFrame) (c : Z) :
  Counts.named_senders df ->
  (c ∈ get_group_chat_ids df
   <-> exists r1 r2, In r1 df /\ In r2 df /\ chat_id r1 = Some c /\ chat_id r2 = Some c
                     /\ sender r1 <> sender r2).
Proof.
  intros Hnamed. unfold Counts.named_senders in Hnamed.
  assert (Htruthy : Forall (fun r => truthy (sender r) = true) df).
  { eapply Forall_impl; [exact Hnamed|]. intros r [s [-> Hs]]. simpl.
    by rewrite bool_decide_eq_false_2. }
  split.
  - intros Hb. destruct (banned_conflict df c Hb) as (r0 & r & H0 & H1 & Hc0 & Hc1 & Hne).
    exists r0, r. repeat (split; [done|]). intros Heq. rewrite Heq in Hne.
    rewrite Forall_forall in Hnamed.
    destruct (Hnamed r (proj2 (list_elem_of_In _ _) H1)) as [s [Hs _]].
    rewrite Hs in Hne. simpl in Hne. by rewrite bool_decide_eq_true_2 in Hne.
  - intros (r1 & r2 & H1 & H2 & Hc1 & Hc2 & Hne).
    destruct (decide (c ∈ get_group_chat_ids df)) as [Hb|Hnb]; [done|].
    exfalso. apply Hne.
    by apply (InvariantFacts.nonbanned_same_sender df Htruthy c r1 r2).
Qed.

End LocalFacts.

(** X6. Whether a conversation is a group depends on its own rows only:
    two tables with the same rows of conversation [c], in the same order,
    agree on [c]; in particular [get_group_chat_ids] may be asked on
    [single_chat df c] instead of [df]. *)
Theorem group_status_is_local (df df' : DataFrame) (c : Z) :
  (c ∈ Classifier.get_group_chat_ids df
   <-> c ∈ Classifier.get_group_chat_ids (Filters.single_chat df c))
  /\ (Filters.single_chat df c = Filters.single_chat df' c ->
      (c ∈ Classifier.get_group_chat_ids df <-> c ∈ Classifier.get_group_chat_ids df')).
Proof.
  unfold Classifier.get_group_chat_ids, Filters.single_chat.
  rewrite !FiltersFacts.select_map. fold (Counts.of_chat c).
  pose proof (proj2 (LocalFacts.scan_local df c)) as H.
  pose proof (proj2 (LocalFacts.scan_local df' c)) as H'.
  pose proof (proj2 (LocalFacts.scan_local (List.filter (Counts.of_chat c) df) c)) as H2.
  rewrite (LocalFacts.filter_filter_sub (Counts.of_chat c) (Counts.of_chat c)) in H2 by done.
  split; [tauto|]. intros Heq. rewrite Heq in H. tauto.
Qed.

Lemma group_status_is_local_witness :
  5 ∈ Classifier.get_group_chat_ids
        [row (Some 5) (Some "Alice"); row (Some 5) (Some "Bob")]
  <-> 5 ∈ Classifier.get_group_chat_ids
        [row (Some 5) (Some "Alice"); row (Some 7) (Some "Carol");
         row (Some 5) (Some "Bob")].
Proof.
  apply (group_status_is_local
           [row (Some 5) (Some "Alice"); row (Some 5) (Some "Bob")]
           [row (Some 5) (Some "Alice"); row (Some 7) (Some "Carol");
            row (Some 5) (Some "Bob")] 5).
  reflexivity.
Defined.

(** X7. A conversation is reported as a group only if the table holds at
    least two rows of it and two of them differ in sender under [!=]; a
    conversation with a single row is never a group. *)
Theorem group_needs_two_rows (df : DataFrame) (c : Z) :
  c ∈ Classifier.get_group_chat_ids df ->
  (2 <= Counts.rows_of_chat df c)%nat
  /\ exists r0 r, In r0 df /\ In r df /\ chat_id r0 = Some c /\ chat_id r = Some c
                  /\ Classifier.py_ne (sender r0) (sender r) = true.
Proof.
  intros Hb. split; [|by apply LocalFacts.banned_conflict].
  unfold Classifier.get_group_chat_ids in Hb.
  apply (proj2 (LocalFacts.scan_local df c)) in Hb.
  unfold Counts.rows_of_chat. change (fun r => bool_decide (chat_id r = Some c))
    with (Counts.of_chat c).
  destruct (List.filter (Counts.of_chat c) df) as [|r [|r' l]]; simpl; [| |lia].
  - unfold Classifier.scan in Hb. simpl in Hb. by apply not_elem_of_empty in Hb.
  - unfold Classifier.scan, Classifier.scan_row in Hb. simpl in Hb.
    destruct (chat_id r); simpl in Hb; by apply not_elem_of_empty in Hb.
Qed.

Lemma group_needs_two_rows_witness :
  Nat.le 2 (Counts.rows_of_chat
              [row (Some 5) (Some "Alice"); row (Some 5) (Some "Bob")] 5).
Proof.
  apply (group_needs_two_rows [row (Some 5) (Some "Alice"); row (Some 5) (Some "Bob")] 5).
  compute_done.
Defined.

(** X8. On a table whose senders are all non-empty strings,
    [get_group_chat_ids] returns exactly the conversations that have two
    rows with different senders. *)
Theorem groups_are_multi_sender (df : DataFrame) (c : Z) :
  Counts.named_senders df ->
  (c ∈ Classifier.get_group_chat_ids df
   <-> exists r1 r2, In r1 df /\ In r2 df /\ chat_id r1 = Some c /\ chat_id r2 = Some c
                     /\ sender r1 <> sender r2).
Proof. apply LocalFacts.groups_char. Qed.

Lemma groups_are_multi_sender_witness :
  5 ∈ Classifier.get_group_chat_ids
        [row (Some 5) (Some "Alice"); row (Some 5) (Some "Bob")].
Proof.
  apply (groups_are_multi_sender [row (Some 5) (Some "Alice"); row (Some 5) (Some "Bob")] 5).
  - repeat constructor; eexists; (split; [reflexivity|discriminate]).
  - exists (row (Some 5) (Some "Alice")), (row (Some 5) (Some "Bob")).
    split; [by left|]. split; [right; by left|]. repeat split; discriminate.
Defined.

(** X9. After [filter_groups] no conversation of the table is a group
    any more, and filtering a second time changes nothing. *)
Theorem filter_groups_idempotent (df : DataFrame) :
  Classifier.get_group_chat_ids (Filters.filter_groups df) = ∅
  /\ Filters.filter_groups (Filters.filter_groups df) = Filters.filter_groups df.
Proof.
  pose proof (LocalFacts.filter_groups_no_groups df) as Hempty.
  split; [exact Hempty|].
  rewrite (LocalFacts.filter_groups_filter (Filters.filter_groups df)), Hempty.
  apply LocalFacts.filter_all. intros r _. unfold Filters.isin.
  destruct (chat_id r); [|done]. by rewrite bool_decide_eq_false_2.
Qed.

(** X10. On a table without empty-string senders, all rows that
    [filter_groups] keeps for one conversation id have the same sender. *)
Theorem filter_groups_single_sender (df : DataFrame) (c : Z) (r1 r2 : JoinedRow) :
  Forall (fun r => sender r <> Some "") df ->
  In r1 (Filters.filter_groups df) -> In r2 (Filters.filter_groups df) ->
  chat_id r1 = Some c -> chat_id r2 = Some c ->
  sender r1 = sender r2.
Proof.
  intros Hne H1 H2 Hc1 Hc2.
  rewrite LocalFacts.filter_groups_filter in H1, H2.
  apply filter_In in H1 as [H1 Hk1]. apply filter_In in H2 as [H2 _].
  rewrite Hc1 in Hk1. simpl in Hk1. apply negb_true_iff, bool_decide_eq_false in Hk1.
  apply (InvariantFacts.nonbanned_same_sender df) with c; try done.
  eapply Forall_impl; [exact Hne|]. intros r Hr. simpl in Hr.
  unfold Classifier.truthy.
  destruct (sender r) as [s|]; [|done]. apply negb_true_iff, bool_decide_eq_false.
  congruence.
Qed.

Lemma filter_groups_single_sender_witness :
  sender (row (Some 7) (Some "Alice"))
  = sender (mkRow (message_with None 3) (Some "Alice") (Some 7)).
Proof.
  apply (filter_groups_single_sender
           [row (Some 5) (Some "Alice"); row (Some 7) (Some "Alice");
            row (Some 5) (Some "Bob");
            mkRow (message_with None 3) (Some "Alice") (Some 7)] 7).
  - repeat constructor; discriminate.
  - vm_compute. left. reflexivity.
  - vm_compute. right. left. reflexivity.
  - reflexivity.
  - reflexivity.
Defined.

(** X11. Every entry of the result of [get_dm_chat_ids] with a non-null
    conversation id names a conversation of the table that is not a group,
    together with the sender recorded for it, which is the sender of one of
    its rows; on a table without empty-string senders it is the sender of
    all its rows. *)
Theorem dm_entries_are_sound (df : DataFrame) (s : option string) (c : Z) :
  In (s, Some c) (Classifier.get_dm_chat_ids df) ->
  (c ∉ Classifier.get_group_chat_ids df)
  /\ dict_get (Classifier.ids_to_senders (Classifier.scan df)) (Some c) = Some s
  /\ (exists r, In r df /\ chat_id r = Some c /\ sender r = s)
  /\ (Forall (fun r => sender r <> Some "") df ->
      forall r, In r df -> chat_id r = Some c -> sender r = s).
Proof.
  intros Hin. unfold Classifier.get_dm_chat_ids in Hin.
  apply InvertFacts.invert_In in Hin.
  unfold Classifier.delete_banned in Hin. apply filter_In in Hin as [Hin Hk].
  simpl in Hk. apply negb_true_iff, bool_decide_eq_false in Hk.
  assert (Hg : dict_get (Classifier.ids_to_senders (Classifier.scan df)) (Some c) = Some s).
  { apply LocalFacts.real_key_lookup; [apply InvertFacts.scan_real_keys_NoDup|done]. }
  split; [exact Hk|]. split; [exact Hg|].
  split; [by apply InvariantFacts.recorded_from_row|].
  intros Hne r Hr Hc.
  assert (Htruthy : Forall (fun r => Classifier.truthy (sender r) = true) df).
  { eapply Forall_impl; [exact Hne|]. intros r' Hr'. simpl in Hr'.
    unfold Classifier.truthy.
    destruct (sender r') as [s'|]; [|done]. apply negb_true_iff, bool_decide_eq_false.
    congruence. }
  pose proof (InvariantFacts.nonbanned_recorded df Htruthy c r Hk Hr Hc) as Hrec.
  congruence.
Qed.

Lemma dm_entries_are_sound_witness :
  exists r, In r [row (Some 5) (Some "Alice"); row (Some 7) (Some "Alice");
                  row (Some 5) (Some "Bob")]
            /\ chat_id r = Some 7 /\ sender r = Some "Alice".
Proof.
  destruct (dm_entries_are_sound
              [row (Some 5) (Some "Alice"); row (Some 7) (Some "Alice");
               row (Some 5) (Some "Bob")] (Some "Alice") 7) as (_ & _ & Hrow & _).
  - vm_compute. left. reflexivity.
  - exact Hrow.
Defined.

(** X12. Every id that [get_dm_chat_ids] deletes from [ids_to_senders] is
    a key of it, so the [del] of line 94 never raises [KeyError]. *)
Theorem deleted_ids_are_keys (df : DataFrame) (c : Z) :
  c ∈ Classifier.banned_ids (Classifier.scan df) ->
  is_Some (dict_get (Classifier.ids_to_senders (Classifier.scan df)) (Some c)).
Proof. apply ClassifierFacts.banned_is_key. Qed.

Lemma deleted_ids_are_keys_witness :
  is_Some (dict_get (Classifier.ids_to_senders
                       (Classifier.scan [row (Some 5) (Some "Alice");
                                         row (Some 5) (Some "Bob")])) (Some 5)).
Proof.
  apply (deleted_ids_are_keys [row (Some 5) (Some "Alice"); row (Some 5) (Some "Bob")] 5).
  compute_done.
Defined.

(** X13. [single_chat df 12] and [filter_funusha df] split the table: each
    row of [df] is in exactly one of them, so the two results together are
    a rearrangement of [df] and their sizes add up to its size. *)
Theorem funusha_split (df : DataFrame) :
  Permutation (Filters.single_chat df 12 ++ Filters.filter_funusha df) df
  /\ (length (Filters.single_chat df 12) + length (Filters.filter_funusha df)
      = length df)%nat
  /\ Filters.single_chat (Filters.filter_funusha df) 12 = []
  /\ Filters.filter_funusha (Filters.single_chat df 12) = [].
Proof.
  unfold Filters.single_chat, Filters.filter_funusha. rewrite !FiltersFacts.select_map.
  pose proof (LocalFacts.filter_split (fun r => Filters.cell_eqb (chat_id r) 12) df) as Hp.
  split; [exact Hp|]. split; [|split].
  - rewrite <- length_app. by apply Permutation_length.
  - apply LocalFacts.filter_filter_none. intros r ->. reflexivity.
  - apply LocalFacts.filter_filter_none. intros r Hr. by apply negb_true_iff.
Qed.


(** ** Counting by groups *)

Section CountFacts.

Context {A K : Type} `{EqDecision K}.

Variable key : A -> option K.

Variable test : K -> A -> bool.

Hypothesis test_key : forall k x, test k x = true <-> key x = Some k.

Lemma sumZ_zero (ks : list K) : Counts.sumZ (List.map (fun _ => 0) ks) = 0.
Proof. induction ks as [|k ks IH]; simpl; [done|]. by rewrite IH. Qed.

Lemma sumZ_indicator (k0 : K) (ks : list K) :
  NoDup ks -> In k0 ks ->
  Counts.sumZ (List.map (fun k => if decide (k = k0) then 1 else 0) ks) = 1.
Proof.
  induction ks as [|k ks IH]; simpl; [done|]. intros Hnd Hin.
  apply NoDup_cons in Hnd as [Hnotin Hnd].
  destruct (decide (k = k0)) as [->|Hne].
  - assert (Hz : Counts.sumZ (List.map (fun k => if decide (k = k0) then 1 else 0) ks) = 0).
    { clear IH Hin Hnd. induction ks as [|k ks IH]; simpl; [done|].
      rewrite decide_False.
      - rewrite IH; [done|]. intros H. apply Hnotin. by right.
      - intros ->. apply Hnotin. by left. }
    rewrite Hz. done.
  - destruct Hin as [?|Hin]; [done|]. rewrite IH by done. done.
Qed.

Lemma sumZ_add (f g : K -> Z) (ks : list K) :
  Counts.sumZ (List.map (fun k => f k + g k) ks)
  = Counts.sumZ (List.map f ks) + Counts.sumZ (List.map g ks).
Proof. induction ks as [|k ks IH]; simpl; [done|]. rewrite IH. lia. Qed.

Lemma sumZ_ext (f g : K -> Z) (ks : list K) :
  (forall k, f k = g k) -> Counts.sumZ (List.map f ks) = Counts.sumZ (List.map g ks).
Proof. intros Hfg. induction ks as [|k ks IH]; simpl; [done|]. by rewrite IH, Hfg. Qed.

(** The sizes of the groups add up to the number of rows that have a
    key, when every key that occurs is listed once. *)
Lemma count_partition (ks : list K) (l : list A) :
  NoDup ks -> (forall x k, In x l -> key x = Some k -> In k ks) ->
  Counts.sumZ (List.map (fun k => Z.of_nat (length (List.filter (test k) l))) ks)
  = Z.of_nat (length (List.filter (fun x => bool_decide (is_Some (key x))) l)).
Proof using Type*.
  intros Hnd. induction l as [|x l IH]; intros Hall.
  - simpl. apply sumZ_zero.
  - assert (IH' := IH (fun y k Hy => Hall y k (or_intror Hy))). clear IH.
    destruct (key x) as [k0|] eqn:Hk.
    + rewrite (sumZ_ext _ (fun k => Z.of_nat (length (List.filter (test k) l))
                                    + (if decide (k = k0) then 1 else 0))).
      * rewrite sumZ_add, IH', sumZ_indicator; [|done|by apply (Hall x); [left|]].
        simpl. rewrite Hk. rewrite bool_decide_eq_true_2 by eauto. simpl. lia.
      * intros k. simpl. destruct (decide (k = k0)) as [->|Hne].
        -- rewrite (proj2 (test_key k0 x) Hk). simpl. lia.
        -- destruct (test k x) eqn:Ht; [|lia].
           apply test_key in Ht. congruence.
    + rewrite (sumZ_ext _ (fun k => Z.of_nat (length (List.filter (test k) l)))).
      * rewrite IH'. simpl. rewrite Hk.
        rewrite bool_decide_eq_false_2; [done|]. by intros [? ?].
      * intros k. simpl. destruct (test k x) eqn:Ht; [|done].
        apply test_key in Ht. congruence.
Qed.

End CountFacts.

Module SortFacts.

Lemma ltb_asym (a b : Z) : (a <? b) = true -> (b <? a) = false.
Proof. lia. Qed.

(** Sorting distinct integers gives a strictly ascending list. *)
Lemma sorted_distinct (l : list Z) :
  NoDup l -> Sorted Z.lt (stable_sort Z.ltb l).
Proof.
  intros Hnd.
  assert (Hnd' : NoDup (stable_sort Z.ltb l)) by (by rewrite (stable_sort_perm Z.ltb)).
  pose proof (stable_sort_sorted Z.ltb ltb_asym l) as Hs.
  induction Hs as [|a l' Hs IH Hhd]; constructor.
  - apply IH. by apply NoDup_cons in Hnd' as [_ ?].
  - destruct Hhd as [|b l'' Hba]; constructor.
    apply NoDup_cons in Hnd' as [Hnotin _].
    assert (a ≠ b) by (intros ->; apply Hnotin; by left). lia.
Qed.

Lemma sorted_keys_In (l : list Z) (y : Z) :
  In y (stable_sort Z.ltb (remove_dups l)) <-> In y l.
Proof.
  rewrite <- !list_elem_of_In, (stable_sort_perm Z.ltb). apply elem_of_remove_dups.
Qed.

Lemma sorted_keys_NoDup (l : list Z) : NoDup (stable_sort Z.ltb (remove_dups l)).
Proof. rewrite (stable_sort_perm Z.ltb). apply NoDup_remove_dups. Qed.

Lemma filter_nonempty {A : Type} (f : A -> bool) (l : list A) :
  0 < Z.of_nat (length (List.filter f l)) <-> exists x, In x l /\ f x = true.
Proof.
  split.
  - destruct (List.filter f l) as [|x l'] eqn:Hf; [simpl; lia|]. intros _.
    exists x. apply filter_In. rewrite Hf. by left.
  - intros [x Hx]. apply filter_In in Hx.
    destruct (List.filter f l); [destruct Hx|simpl; lia].
Qed.

End SortFacts.

(** ** Counts per year, per group and per month of one sender *)

Module SeriesFacts.

Lemma series_keys (key : JoinedRow -> Z) (l : DataFrame) :
  List.map fst (Counts.series_by key l) = stable_sort Z.ltb (remove_dups (List.map key l)).
Proof. unfold Counts.series_by. rewrite List.map_map. simpl. apply List.map_id. Qed.

Lemma series_sorted (key : JoinedRow -> Z) (l : DataFrame) :
  Sorted Z.lt (List.map fst (Counts.series_by key l)).
Proof. rewrite series_keys. apply SortFacts.sorted_distinct, NoDup_remove_dups. Qed.

Lemma series_elem (key : JoinedRow -> Z) (l : DataFrame) (k c : Z) :
  In (k, c) (Counts.series_by key l)
  <-> 0 < c /\ c = Z.of_nat (length (List.filter (fun r => key r =? k) l)).
Proof.
  unfold Counts.series_by. rewrite in_map_iff. split.
  - intros [k' [[= -> <-] Hin]]. split; [|done].
    apply SortFacts.sorted_keys_In, in_map_iff in Hin as [r [Hr Hin]].
    apply SortFacts.filter_nonempty. exists r. split; [done|]. lia.
  - intros [Hpos ->]. exists k. split; [done|].
    apply SortFacts.filter_nonempty in Hpos as [r [Hr Hk]].
    apply SortFacts.sorted_keys_In, in_map_iff. exists r. split; [lia|done].
Qed.

Lemma series_total (key : JoinedRow -> Z) (l : DataFrame) :
  Counts.sumZ (List.map snd (Counts.series_by key l)) = Z.of_nat (length l).
Proof.
  unfold Counts.series_by. rewrite List.map_map. simpl.
  rewrite (count_partition (fun r => Some (key r)) (fun k r => key r =? k)).
  - f_equal. f_equal. apply LocalFacts.filter_all. intros r _.
    apply bool_decide_eq_true. eauto.
  - intros k r. split; [intros H; f_equal; lia|intros [= <-]; lia].
  - apply SortFacts.sorted_keys_NoDup.
  - intros r k Hr [= <-]. apply SortFacts.sorted_keys_In, in_map. exact Hr.
Qed.

Lemma filter_filter_and {A : Type} (f g : A -> bool) (l : list A) :
  List.filter g (List.filter f l) = List.filter (fun x => f x && g x) l.
Proof.
  induction l as [|x l IH]; [reflexivity|]. simpl.
  destruct (f x); simpl; [|done]. destruct (g x); by rewrite IH.
Qed.

Lemma one_sender_month_count (df : DataFrame) (s : string) (p : Z) :
  Z.of_nat (length (List.filter (fun r => year_month (msg r) =? p)
                      (Plot.df_one_sender df s)))
  = Aggregators.message_count (p, s) df.
Proof.
  unfold Plot.df_one_sender, Aggregators.message_count.
  rewrite FiltersFacts.select_map, filter_filter_and. f_equal. f_equal.
  apply filter_ext. intros r. unfold Aggregators.row_key.
  destruct (sender r) as [s'|]; simpl.
  - destruct (decide (s' = s)) as [->|Hne].
    + rewrite bool_decide_eq_true_2 by done. simpl.
      destruct (Z.eqb_spec (year_month (msg r)) p) as [->|Hp].
      * by rewrite bool_decide_eq_true_2.
      * rewrite bool_decide_eq_false_2; [done|]. congruence.
    + rewrite !bool_decide_eq_false_2; [done| |]; congruence.
  - done.
Qed.

End SeriesFacts.

(** Scenario A of the specification: two messages of 2022 and one of 2023. *)
Example scenario_A :
  Yearly.get_messages_per_year
    [mkRow (mkMessage None None 0 0 0 1 2023 636 0 0 0 3) (Some "John") None;
     mkRow (mkMessage None None 0 0 0 1 2022 624 0 0 0 1) (Some "John") None;
     mkRow (mkMessage None None 0 0 0 2 2022 625 0 0 0 2) (Some "Jane") None]
  = ["Messages in 2022: 2"; "Messages in 2023: 1"].
Proof. vm_compute. reflexivity. Qed.

(** X15. [get_messages_per_year] gives one line per year that occurs in
    the table, the years strictly ascending; each count is the positive
    number of rows of that year, and the counts add up to the number of
    rows of the table.  An empty table gives no line. *)
Theorem messages_per_year_counts (df : DataFrame) :
  let series := Yearly.messages_per_year df in
  Sorted Z.lt (List.map fst series)
  /\ (forall y c, In (y, c) series
        <-> 0 < c
            /\ c = Z.of_nat (length (List.filter (fun r => year (msg r) =? y) df)))
  /\ Counts.sumZ (List.map snd series) = Z.of_nat (length df)
  /\ length (Yearly.get_messages_per_year df)
     = length (remove_dups (List.map (fun r => year (msg r)) df))
  /\ Yearly.get_messages_per_year [] = [].
Proof.
  change (Yearly.messages_per_year df)
    with (Counts.series_by (fun r => year (msg r)) df). simpl.
  split; [apply SeriesFacts.series_sorted|].
  split; [intros y c; apply SeriesFacts.series_elem|].
  split; [apply SeriesFacts.series_total|].
  split; [|reflexivity].
  unfold Yearly.get_messages_per_year, Yearly.messages_per_year.
  rewrite !length_map. apply Permutation_length, stable_sort_perm.
Qed.

(** X16. In the grouped frame of [get_top_senders_by_month] the counts add
    up to the number of rows of the table that have a sender: rows with a
    null sender are counted in no group. *)
Theorem groupby_count_total (df : DataFrame) :
  Counts.sumZ (List.map snd (Aggregators.groupby_count df))
  = Z.of_nat (length (List.filter (fun r => bool_decide (is_Some (sender r))) df)).
Proof.
  unfold Aggregators.groupby_count. rewrite List.map_map. simpl.
  unfold Aggregators.message_count.
  rewrite (count_partition Aggregators.row_key
             (fun k r => bool_decide (Aggregators.row_key r = Some k))).
  - f_equal. f_equal. apply filter_ext. intros r. unfold Aggregators.row_key.
    destruct (sender r) as [s|].
    + rewrite !bool_decide_eq_true_2; eauto.
    + rewrite !bool_decide_eq_false_2; [done| |]; by intros [? ?].
  - intros k r. apply bool_decide_eq_true.
  - apply AggregatorFacts.group_keys_NoDup.
  - intros r k Hr Hk. apply AggregatorFacts.group_keys_elem. eauto.
Qed.

(** X17. The series that [plot_messages_by_sender_over_time] draws for a
    sender lists the months in which the sender has messages, strictly
    ascending; its entry for a month is the count of that (month, sender)
    group in the grouped frame of [get_top_senders_by_month], and its
    counts add up to the number of rows of that sender. *)
Theorem plot_series_counts (df : DataFrame) (s : string) :
  let series := Plot.df_sender_counts df s in
  Sorted Z.lt (List.map fst series)
  /\ (forall p c, In (p, c) series <-> In ((p, s), c) (Aggregators.groupby_count df))
  /\ Counts.sumZ (List.map snd series)
     = Z.of_nat (length (List.filter (fun r => bool_decide (sender r = Some s)) df)).
Proof.
  change (Plot.df_sender_counts df s)
    with (Counts.series_by (fun r => year_month (msg r)) (Plot.df_one_sender df s)).
  simpl. split; [apply SeriesFacts.series_sorted|]. split.
  - intros p c. rewrite SeriesFacts.series_elem, AggregatorFacts.groupby_count_elem.
    by rewrite SeriesFacts.one_sender_month_count.
  - rewrite SeriesFacts.series_total. unfold Plot.df_one_sender.
    by rewrite FiltersFacts.select_map.
Qed.

(** ** The ranker on the table of [get_top_senders_by_month] *)

Module ScoreFacts.
Import Aggregators Ranker Counts.

Lemma in_month_snoc (p q : Z) (s : string) (l : list group_key) :
  in_month p (l ++ [(q, s)]) = in_month p l + (if q =? p then 1 else 0).
Proof.
  unfold in_month. rewrite List.filter_app, length_app. simpl.
  rewrite Nat2Z.inj_add. f_equal. destruct (q =? p); reflexivity.
Qed.

Lemma in_month_app (p : Z) (l l' : list group_key) :
  in_month p (l ++ l') = in_month p l + in_month p l'.
Proof. unfold in_month. rewrite List.filter_app, length_app. apply Nat2Z.inj_add. Qed.

Lemma rank_bounds (pre : list group_key) (p : Z) :
  0 <= rank_after pre p <= in_month p pre.
Proof.
  induction pre as [|[q s] pre IH] using rev_ind.
  - unfold rank_after, in_month. simpl. lia.
  - rewrite RankerFacts.rank_after_snoc, in_month_snoc.
    assert (0 <= in_month p pre) by (unfold in_month; lia).
    destruct (q =? p); lia.
Qed.

Lemma sorted_app_inv {A : Type} (R : A -> A -> Prop) (l1 l2 : list A) :
  StronglySorted R (l1 ++ l2) ->
  StronglySorted R l1 /\ (forall x1 x2, In x1 l1 -> In x2 l2 -> R x1 x2).
Proof.
  induction l1 as [|x l1 IH]; simpl; intros Hs.
  - split; [constructor|]. intros x1 x2 [].
  - apply StronglySorted_inv in Hs as [Hs Hall]. destruct (IH Hs) as [Hs1 Hcross].
    rewrite Forall_forall in Hall. split.
    + constructor; [done|]. apply Forall_forall. intros y Hy. apply Hall.
      apply list_elem_of_In. apply in_or_app. left. by apply list_elem_of_In.
    + intros x1 x2 [<-|H1] H2.
      * apply Hall, list_elem_of_In, in_or_app. by right.
      * by apply Hcross.
Qed.

(** On an index with ascending periods the rank of a row is the number
    of earlier rows of its period. *)
Lemma rank_on_sorted (pre : list group_key) (p : Z) :
  StronglySorted (fun a b : group_key => fst a <= fst b) pre ->
  Forall (fun k : group_key => fst k <= p) pre ->
  rank_after pre p = in_month p pre.
Proof.
  induction pre as [|[q s] pre IH] using rev_ind; intros Hs Hle.
  - reflexivity.
  - rewrite RankerFacts.rank_after_snoc, in_month_snoc.
    apply sorted_app_inv in Hs as [Hs Hlast].
    apply Forall_app in Hle as [Hle Hq]. apply Forall_inv in Hq. simpl in Hq.
    destruct (Z.eqb_spec q p) as [->|Hne].
    + rewrite IH by done. lia.
    + unfold in_month.
      assert (Hz : List.filter (fun k : Z * string => fst k =? p) pre = []).
      { clear IH Hle Hs. induction pre as [|k pre IHp]; [reflexivity|]. simpl.
        assert (fst k <= q).
        { apply (Hlast k (q, s)); [by left|by left]. }
        destruct (Z.eqb_spec (fst k) p); [lia|].
        apply IHp. intros x1 x2 H1 H2. apply Hlast; [by right|done]. }
      rewrite Hz. reflexivity.
Qed.

Lemma head_from_sorted (R : counted -> counted -> Prop) (n : Z) (seen : list Z)
    (l : list counted) :
  StronglySorted R l -> StronglySorted R (head_from n seen l).
Proof.
  intros Hs. revert seen. induction Hs as [|x l Hs IH Hall]; intros seen; simpl.
  - constructor.
  - destruct (if 0 <=? n then _ else _); [|apply IH].
    constructor; [apply IH|].
    apply Forall_forall. intros y Hy. rewrite Forall_forall in Hall. apply Hall.
    apply list_elem_of_In. apply list_elem_of_In in Hy.
    by apply HeadFacts.head_from_In in Hy.
Qed.

Lemma top_index_sorted (df : DataFrame) (n : Z) :
  StronglySorted (fun a b : group_key => fst a <= fst b)
    (List.map fst (get_top_senders_by_month df n)).
Proof.
  unfold get_top_senders_by_month, groupby_head.
  pose proof (head_from_sorted sorted_order n []
                (sort_values (groupby_count df))
                (AggregatorFacts.sort_values_sorted _)) as Hs.
  induction Hs as [|x l Hs IH Hall]; simpl; constructor; [exact IH|].
  apply Forall_forall. intros k Hk. apply list_elem_of_In, in_map_iff in Hk as [y [<- Hy]].
  rewrite Forall_forall in Hall. specialize (Hall y (proj2 (list_elem_of_In _ _) Hy)).
  unfold sorted_order, period_of in Hall. lia.
Qed.

Lemma top_index_month_size (df : DataFrame) (n : nat) (p : Z) :
  in_month p (List.map fst (get_top_senders_by_month df (Z.of_nat n))) <= Z.of_nat n.
Proof.
  unfold in_month.
  assert (Hlen : length (List.filter (fun k : Z * string => fst k =? p)
                           (List.map fst (get_top_senders_by_month df (Z.of_nat n))))
                 = length (List.filter (in_period p)
                             (get_top_senders_by_month df (Z.of_nat n)))).
  { induction (get_top_senders_by_month df (Z.of_nat n)) as [|x l IH]; [reflexivity|].
    simpl. unfold in_period at 1, period_of. destruct (fst (fst x) =? p); simpl; lia. }
  rewrite Hlen. unfold get_top_senders_by_month.
  rewrite AggregatorFacts.groupby_head_period.
  pose proof (firstn_le_length n
                (List.filter (in_period p) (sort_values (groupby_count df)))). lia.
Qed.

(** The rank of a row of the table, and what it scores. *)
Lemma top_rank (df : DataFrame) (n : nat) (pre post : list group_key)
    (p : Z) (s : string) :
  List.map fst (get_top_senders_by_month df (Z.of_nat n)) = pre ++ [(p, s)] ++ post ->
  rank_after pre p = in_month p pre /\ rank_after pre p < Z.of_nat n.
Proof.
  intros Hsplit.
  pose proof (top_index_sorted df (Z.of_nat n)) as Hs.
  pose proof (top_index_month_size df n p) as Hsize.
  rewrite Hsplit in Hs, Hsize.
  apply sorted_app_inv in Hs as [Hpre Hcross].
  assert (Hrank : rank_after pre p = in_month p pre).
  { apply rank_on_sorted; [done|]. apply Forall_forall. intros k Hk.
    apply (Hcross k (p, s)); [by apply list_elem_of_In|by left]. }
  split; [exact Hrank|].
  rewrite !in_month_app in Hsize. unfold in_month at 2 in Hsize. simpl in Hsize.
  rewrite Z.eqb_refl in Hsize. simpl in Hsize.
  assert (0 <= in_month p post) by (unfold in_month; lia). lia.
Qed.

(** A lower bound for every row's score bounds every total. *)
Lemma total_lower (index : list group_key) (lo : Z) :
  0 <= lo ->
  (forall pre p s' post, index = pre ++ [(p, s')] ++ post -> lo <= 5 - rank_after pre p) ->
  forall s, 0 <= total_score index s
            /\ (In s (List.map snd index) -> lo <= total_score index s).
Proof.
  intros Hlo. induction index as [|[p s'] index IH] using rev_ind; intros Hrows s.
  - split; [reflexivity|intros []].
  - assert (Hprev : forall pre q t post,
               index = pre ++ [(q, t)] ++ post -> lo <= 5 - rank_after pre q).
    { intros pre q t post Heq. apply (Hrows pre q t (post ++ [(p, s')])).
      rewrite Heq, <- !app_assoc. reflexivity. }
    destruct (IH Hprev s) as [Hnn Hin].
    assert (Hlast : lo <= 5 - rank_after index p).
    { apply (Hrows index p s' []). reflexivity. }
    rewrite RankerFacts.total_score_snoc, map_app, in_app_iff. simpl.
    case_bool_decide as Hs.
    + split; [lia|]. intros _. lia.
    + split; [lia|]. intros [Hold|[?|[]]]; [|done]. specialize (Hin Hold). lia.
Qed.

End ScoreFacts.

(** X18. On the table that [get_top_senders_by_month df n] returns, the
    rank that [compute_sender_scores] gives a row is the number of earlier
    rows of the same month, which is below [n]: the row of sender [s] adds
    5 minus its position within its month to the score of [s]. *)
Theorem rank_is_position_in_month (df : DataFrame) (n : nat)
    (pre post : list Aggregators.group_key) (p : Z) (s : string) :
  List.map fst (Aggregators.get_top_senders_by_month df (Z.of_nat n))
    = pre ++ [(p, s)] ++ post ->
  Ranker.rank_after pre p = Counts.in_month p pre
  /\ 0 <= Counts.in_month p pre < Z.of_nat n
  /\ Ranker.senders_to_scores (Ranker.rank_loop (pre ++ [(p, s)]))
     = dict_set (Ranker.senders_to_scores (Ranker.rank_loop pre)) s
         (default 0 (dict_get (Ranker.senders_to_scores (Ranker.rank_loop pre)) s)
          + (5 - Counts.in_month p pre)).
Proof.
  intros Hsplit. destruct (ScoreFacts.top_rank df n pre post p s Hsplit) as [Hrank Hlt].
  split; [exact Hrank|]. split.
  - rewrite <- Hrank. split; [apply ScoreFacts.rank_bounds|exact Hlt].
  - rewrite <- Hrank. apply RankerFacts.rank_step_scores.
Qed.

Lemma rank_is_position_in_month_witness :
  Ranker.rank_after [(624, "A")] 624 = Counts.in_month 624 [(624, "A")].
Proof.
  apply (rank_is_position_in_month
           [sent 624 "D"; sent 624 "B"; sent 624 "A"; sent 624 "C"; sent 624 "A";
            sent 624 "B"; sent 624 "A"; sent 624 "C"; sent 624 "B"; sent 624 "A"]
           3 [(624, "A")] [(624, "C")] 624 "B").
  vm_compute. reflexivity.
Defined.

(** X19. When [get_top_senders_by_month] is asked for at most five
    senders per month, every score that [compute_sender_scores] computes
    from its table is positive: a sender of the table scores at least
    [6 - n]. *)
Theorem top5_scores_positive (df : DataFrame) (n : nat) (s : string) (v : Z) :
  (n <= 5)%nat ->
  In (s, v) (Ranker.senders_to_scores
               (Ranker.rank_loop
                  (List.map fst (Aggregators.get_top_senders_by_month df (Z.of_nat n))))) ->
  6 - Z.of_nat n <= v /\ 1 <= v.
Proof.
  intros Hn Hin. apply RankerFacts.scores_elem in Hin as [Hs ->].
  assert (Hlo : 6 - Z.of_nat n
                <= Ranker.total_score
                     (List.map fst (Aggregators.get_top_senders_by_month df (Z.of_nat n))) s).
  { apply ScoreFacts.total_lower; [lia| |exact Hs].
    intros pre p s' post Hsplit.
    destruct (ScoreFacts.top_rank df n pre post p s' Hsplit) as [_ Hlt]. lia. }
  lia.
Qed.

Lemma top5_scores_positive_witness :
  6 - Z.of_nat 3 <= 4.
Proof.
  apply (top5_scores_positive
           [sent 624 "D"; sent 624 "B"; sent 624 "A"; sent 624 "C"; sent 624 "A";
            sent 624 "B"; sent 624 "A"; sent 624 "C"; sent 624 "B"; sent 624 "A"]
           3 "B" 4).
  - lia.
  - vm_compute. right. left. reflexivity.
Defined.

(** X20. [compute_sender_scores] returns one string per distinct sender of
    the index of its table, whatever the table; an empty table gives an
    empty list. *)
Theorem one_line_per_sender (top_senders_by_month : list Aggregators.counted) :
  length (Ranker.compute_sender_scores top_senders_by_month)
  = length (remove_dups (List.map snd (List.map fst top_senders_by_month)))
  /\ Ranker.compute_sender_scores [] = [].
Proof.
  split; [|reflexivity].
  unfold Ranker.compute_sender_scores. rewrite length_map.
  rewrite (Permutation_length (stable_sort_perm Ranker.score_before _)).
  rewrite <- (length_map fst).
  apply Permutation_length, NoDup_Permutation.
  - apply RankerFacts.scores_NoDup.
  - apply NoDup_remove_dups.
  - intros s. rewrite elem_of_remove_dups, !list_elem_of_In, in_map_iff. split.
    + intros [[s' v] [<- Hin]]. by apply RankerFacts.scores_elem in Hin as [? _].
    + intros Hs. exists (s, Ranker.total_score (List.map fst top_senders_by_month) s).
      split; [done|]. by apply RankerFacts.scores_elem.
Qed.

(** ** Further edge behaviour *)

Module EdgeFacts.
Import Aggregators.

Lemma count_period_map (p : Z) (l : list counted) :
  count_period p (List.map period_of l)
  = Z.of_nat (length (List.filter (in_period p) l)).
Proof.
  unfold count_period. f_equal. induction l as [|x l IH]; [reflexivity|]. simpl.
  unfold in_period at 1. rewrite (Z.eqb_sym p (period_of x)).
  destruct (period_of x =? p); simpl; by rewrite IH.
Qed.

(** [head] with a negative count keeps all but the last rows of each
    period. *)
Lemma head_from_negative (k : nat) (p : Z) (l : list counted) (seen : list Z) :
  (0 < k)%nat ->
  List.filter (in_period p) (head_from (- Z.of_nat k) seen l)
  = firstn (length (List.filter (in_period p) l) - k) (List.filter (in_period p) l).
Proof.
  intros Hk. revert seen. induction l as [|x l IH]; intros seen; [reflexivity|].
  assert (Hcons : forall l', List.filter (in_period p) (x :: l')
                  = if in_period p x then x :: List.filter (in_period p) l'
                    else List.filter (in_period p) l') by reflexivity.
  simpl head_from. rewrite (proj2 (Z.leb_gt 0 (- Z.of_nat k))) by lia.
  rewrite Z.opp_involutive, count_period_map, (Hcons l).
  destruct (in_period p x) eqn:Hx.
  - assert (Hp : period_of x = p) by (unfold in_period in Hx; lia). rewrite Hp.
    destruct (Z.leb_spec (Z.of_nat k) (Z.of_nat (length (List.filter (in_period p) l))))
      as [Hle|Hgt].
    + rewrite Hcons, IH. simpl length.
      replace (S (length (List.filter (in_period p) l)) - k)%nat
        with (S (length (List.filter (in_period p) l) - k))%nat by lia.
      reflexivity.
    + rewrite IH. simpl length.
      replace (S (length (List.filter (in_period p) l)) - k)%nat with 0%nat by lia.
      replace (length (List.filter (in_period p) l) - k)%nat with 0%nat by lia.
      reflexivity.
  - destruct (_ <=? _).
    + rewrite Hcons. apply IH.
    + apply IH.
Qed.

Lemma head_from_all (n : Z) (l : list counted) (seen : list Z) :
  Z.of_nat (length seen) + Z.of_nat (length l) <= n -> head_from n seen l = l.
Proof.
  revert seen. induction l as [|x l IH]; intros seen Hn; [reflexivity|].
  simpl in *. rewrite (proj2 (Z.leb_le 0 n)) by lia.
  assert (Hc : count_period (period_of x) seen <= Z.of_nat (length seen)).
  { unfold count_period. pose proof (filter_length_le (Z.eqb (period_of x)) seen). lia. }
  rewrite (proj2 (Z.ltb_lt _ _)) by lia.
  f_equal. apply IH. simpl. lia.
Qed.

Lemma head_from_zero (l : list counted) (seen : list Z) : head_from 0 seen l = [].
Proof.
  revert seen. induction l as [|x l IH]; intros seen; [reflexivity|].
  simpl. assert (H : (count_period (period_of x) seen <? 0) = false).
  { apply Z.ltb_ge. unfold count_period. apply Nat2Z.is_nonneg. }
  rewrite H. apply IH.
Qed.


End EdgeFacts.

(** X21. [get_top_senders_by_month] does not check [top_x].  With 0 it
    returns an empty table; with a count at least the size of the grouped
    frame it returns the whole sorted frame; with a negative [top_x = -k]
    it keeps, for each month, all but the last [k] senders of the month. *)
Theorem top_x_out_of_range (df : DataFrame) (k : nat) (p : Z) :
  let sorted_data := Aggregators.sort_values (Aggregators.groupby_count df) in
  Aggregators.get_top_senders_by_month df 0 = []
  /\ (forall n, Z.of_nat (length sorted_data) <= n ->
        Aggregators.get_top_senders_by_month df n = sorted_data)
  /\ ((0 < k)%nat ->
      List.filter (Aggregators.in_period p)
        (Aggregators.get_top_senders_by_month df (- Z.of_nat k))
      = firstn (length (List.filter (Aggregators.in_period p) sorted_data) - k)
          (List.filter (Aggregators.in_period p) sorted_data)).
Proof.
  simpl. unfold Aggregators.get_top_senders_by_month, Aggregators.groupby_head.
  split; [apply EdgeFacts.head_from_zero|]. split.
  - intros n Hn. apply EdgeFacts.head_from_all. simpl. lia.
  - intros Hk. by apply EdgeFacts.head_from_negative.
Qed.

Lemma top_x_out_of_range_witness :
  Aggregators.get_top_senders_by_month
    [sent 624 "A"; sent 624 "B"; sent 624 "A"; sent 625 "B"] 5
  = Aggregators.sort_values
      (Aggregators.groupby_count [sent 624 "A"; sent 624 "B"; sent 624 "A"; sent 625 "B"]).
Proof.
  destruct (top_x_out_of_range
              [sent 624 "A"; sent 624 "B"; sent 624 "A"; sent 625 "B"] 1 624)
    as (_ & Hall & _).
  apply Hall. vm_compute. discriminate.
Defined.

(** X22. On tables whose senders are all non-empty strings the result of
    [get_group_chat_ids] does not depend on the order of the rows. *)
Theorem groups_order_independent (df df' : DataFrame) :
  Counts.named_senders df -> Permutation df df' ->
  Classifier.get_group_chat_ids df = Classifier.get_group_chat_ids df'.
Proof.
  intros Hnamed Hperm.
  assert (Hnamed' : Counts.named_senders df').
  { unfold Counts.named_senders in *. by rewrite <- Hperm. }
  apply set_eq. intros c.
  rewrite (LocalFacts.groups_char df c Hnamed), (LocalFacts.groups_char df' c Hnamed').
  split; intros (r1 & r2 & H1 & H2 & Hrest); exists r1, r2;
    (split; [|split; [|exact Hrest]]).
  - by rewrite <- Hperm.
  - by rewrite <- Hperm.
  - by rewrite Hperm.
  - by rewrite Hperm.
Qed.

Lemma groups_order_independent_witness :
  Classifier.get_group_chat_ids [row (Some 5) (Some "Alice"); row (Some 5) (Some "Bob")]
  = Classifier.get_group_chat_ids [row (Some 5) (Some "Bob"); row (Some 5) (Some "Alice")].
Proof.
  apply (groups_order_independent
           [row (Some 5) (Some "Alice"); row (Some 5) (Some "Bob")]
           [row (Some 5) (Some "Bob"); row (Some 5) (Some "Alice")]).
  - repeat constructor; eexists; (split; [reflexivity|discriminate]).
  - apply perm_swap.
Defined.

(** With an empty-string sender the order of the rows matters. *)
Example groups_order_matters :
  Classifier.get_group_chat_ids [row (Some 5) (Some ""); row (Some 5) (Some "Alice")] = ∅
  /\ Classifier.get_group_chat_ids [row (Some 5) (Some "Alice"); row (Some 5) (Some "")]
     = {[5]}.
Proof. split; vm_compute; reflexivity. Qed.


